(** * pytest_django_test.db_helpers

    A shallow embedding of [pytest_django_test/db_helpers.py]: the helpers
    that drop, probe and mark the "inner" test database through the
    command-line clients (psql, mysql) or the embedded sqlite3 module, and
    the probe that tells whether transactions are disabled.

    The Python code is effectful.  Its effects are threaded explicitly: every
    helper is a function from a world to a result (a value or a raised
    exception) and the world after the call. *)

From Stdlib Require Import String Ascii List Bool Arith ZArith Lia.
From Stdlib.Strings Require Import Byte.
From stdpp Require Import base option list gmap strings.

Import ListNotations.
Local Open Scope string_scope.
Local Open Scope list_scope.

(** ** Python values used by the helpers *)

(** Arguments such as [name], [suffix] and [db_suffix] are either [None] or a
    [str]. *)
Definition pyarg := option string.

(** [bool(x)] for [x] either [None] or a [str]. *)
Definition truthy (x : pyarg) : bool :=
  match x with
  | None => false
  | Some s => negb (String.eqb s "")
  end.

(** ['%s' % x] for [x] either [None] or a [str]. *)
Definition pystr (x : pyarg) : string :=
  match x with
  | None => "None"
  | Some s => s
  end.

(** ['%s_%s' % (a, b)] *)
Definition fmt_underscore (a b : pyarg) : string :=
  pystr a +:+ "_" +:+ pystr b.

(** [s.split(sep)] for a one-character separator. *)
Fixpoint split (sep : ascii) (s : string) : list string :=
  match s with
  | EmptyString => [""]
  | String c s' =>
      if Ascii.eqb c sep then "" :: split sep s'
      else match split sep s' with
           | h :: t => String c h :: t
           | [] => [String c ""]
           end
  end.

(** [needle in hay] on strings. *)
Fixpoint py_in (needle hay : string) : bool :=
  String.prefix needle hay ||
  match hay with
  | EmptyString => false
  | String _ hay' => py_in needle hay'
  end.

(** The last character of a string, if it has one. *)
Fixpoint last_ascii (s : string) : option ascii :=
  match s with
  | EmptyString => None
  | String c EmptyString => Some c
  | String _ s' => last_ascii s'
  end.

(** ** Settings and the module-level names *)

(** [settings.DATABASES['default']], as far as the helpers read it. *)
Record Settings := {
  ENGINE : string;
  NAME : string;
  TEST_NAME : pyarg;          (* ['TEST']['NAME'] *)
  USER : pyarg                (* .get('USER', None) *)
}.

Section Names.
Variable cfg : Settings.

(** [settings.DATABASES['default']['TEST']['NAME'] or 'test_{}'.format(DB_NAME)],
    before the module-level [if]. *)
Definition TEST_DB_NAME_0 : string :=
  if truthy (TEST_NAME cfg) then pystr (TEST_NAME cfg)
  else "test_" +:+ NAME cfg.

Definition DB_NAME : string :=
  if String.eqb TEST_DB_NAME_0 ":memory:"
  then "/invalid_should_never_be_accessed"
  else NAME cfg +:+ "_inner".

Definition TEST_DB_NAME : string :=
  if String.eqb TEST_DB_NAME_0 ":memory:"
  then TEST_DB_NAME_0
  else TEST_DB_NAME_0 +:+ "_inner".

(** [settings.DATABASES['default']['ENGINE'].split('.')[-1]] *)
Definition get_db_engine : string :=
  List.last (split "." (ENGINE cfg)) "".
End Names.

(** ** Exceptions and results *)

Inductive exn :=
| AssertionError (msg : string)
| PopenError                  (* what [subprocess.Popen] raises when no process starts *)
| OSError (path : string)     (* [os.unlink] on a missing path *)
| OperationalError (msg : string)  (* [sqlite3.OperationalError] *)
| DatabaseError (msg : string)     (* [sqlite3.DatabaseError], not operational *)
| DoesNotExist                     (* [Item.DoesNotExist] *)
| MultipleObjectsReturned          (* [Item.MultipleObjectsReturned] *)
| Skipped (msg : string)           (* what [pytest.skip] raises *)
| DjangoUnicodeDecodeError.        (* [force_text] on bytes it cannot decode *)

Inductive result (A : Type) :=
| Ok (a : A)
| Raise (e : exn).
Arguments Ok {A} a.
Arguments Raise {A} e.

(** [CmdResult] *)
Record CmdResult := {
  status_code : Z;
  std_out : list byte;
  std_err : list byte
}.

(** What is observable of the helpers from outside. *)
Inductive event :=
| EvPopen (args : list string)
| EvPathExists (path : string)
| EvUnlink (path : string)
| EvConnect (path : string)
| EvExecute (path sql : string)
| EvCommit (path : string)
| EvRollback (path : string)
| EvClose (path : string).

(** What is at a path: a file that is a sqlite database with some tables,
    a file that is something else, or a directory. *)
Inductive file :=
| SqliteDb (tables : list string)
| NotADb
| Directory.

(** ** State and exceptions

    A computation takes the state before and gives a value or a raised
    exception, with the state after. *)

Definition M (S A : Type) : Type := S -> result A * S.

Definition ret {S A} (a : A) : M S A := fun w => (Ok a, w).

Definition raise {S A} (e : exn) : M S A := fun w => (Raise e, w).

Definition bind {S A B} (m : M S A) (k : A -> M S B) : M S B :=
  fun w =>
    match m w with
    | (Ok a, w') => k a w'
    | (Raise e, w') => (Raise e, w')
    end.

Declare Scope py_scope.
Delimit Scope py_scope with py.
Notation "x <- c ;; k" := (bind c (fun x => k))
  (at level 100, c at next level, right associativity) : py_scope.
Notation "c ;; k" := (bind c (fun _ => k))
  (at level 100, right associativity) : py_scope.
Local Open Scope py_scope.

(** [assert c, msg] *)
Definition py_assert {S} (c : bool) (msg : string) : M S unit :=
  if c then ret tt else raise (AssertionError msg).

(** [try: body finally: fin] *)
Definition try_finally {S A} (body : M S A) (fin : M S unit) : M S A :=
  fun w =>
    match body w with
    | (r, w') =>
        match fin w' with
        | (Ok _, w'') => (r, w'')
        | (Raise e, w'') => (Raise e, w'')
        end
    end.

(** What [subprocess.Popen(args, stdout=PIPE, stderr=PIPE)] followed by
    [communicate()] and [wait()] yields once the process has run. *)
Record completed := {
  returncode : Z;
  stdoutdata : list byte;
  stderrdata : list byte
}.

(** The statements the helpers send to the embedded sqlite3 module. *)
Inductive stmt :=
| CreateTable (t : string)
| SelectFrom (t : string).

Definition parse_sql (sql : string) : option stmt :=
  if String.eqb sql "CREATE TABLE mark_table(kaka int);"
  then Some (CreateTable "mark_table")
  else if String.eqb sql "SELECT 1 FROM mark_table"
  then Some (SelectFrom "mark_table")
  else None.

Definition has_table (t : string) (ts : list string) : bool :=
  existsb (String.eqb t) ts.

(** ** The helpers *)

Section Helpers.

(** The database servers and whatever else the command-line clients talk
    to: [popen args e] is [None] when no process can be started, and
    otherwise what the process left behind. *)
Variable Ext : Type.
Variable popen : list string -> Ext -> option (completed * Ext).

(** [force_text] of [pytest_django_test.compat]: the text of some bytes, or
    [None] for bytes that cannot be decoded, on which it raises. *)
Variable force_text : list byte -> option string.

Variable cfg : Settings.

(** The world: the state behind the clients, what is at each path, the
    paths that sqlite3 cannot open or create a file at (no permission, no
    such directory), the paths that cannot be unlinked (no permission on
    the directory), and what has been done so far. *)
Record World := {
  ext : Ext;
  fs : gmap string file;
  unopenable : gset string;
  undeletable : gset string;
  trace : list event
}.

Local Abbreviation Op := (M World).

Definition set_ext (e : Ext) (w : World) : World :=
  {| ext := e; fs := fs w; unopenable := unopenable w;
     undeletable := undeletable w; trace := trace w |}.

Definition set_fs (f : gmap string file) (w : World) : World :=
  {| ext := ext w; fs := f; unopenable := unopenable w;
     undeletable := undeletable w; trace := trace w |}.

Definition log (e : event) (w : World) : World :=
  {| ext := ext w; fs := fs w; unopenable := unopenable w;
     undeletable := undeletable w; trace := trace w ++ [e] |}.

Definition emit (e : event) : Op unit := fun w => (Ok tt, log e w).

(** [force_text(b)] where it is called. *)
Definition decode (b : list byte) : Op string :=
  match force_text b with
  | Some s => ret s
  | None => raise DjangoUnicodeDecodeError
  end.

(** [try: body except sqlite3.OperationalError: handler] *)
Definition except_OperationalError {A} (body handler : Op A) : Op A :=
  fun w =>
    match body w with
    | (Raise (OperationalError _), w') => handler w'
    | rw => rw
    end.

(** *** The operating system *)

(** [subprocess.Popen(args, ...)], [communicate()] and [wait()].  With an
    empty [args] Popen raises before it starts anything. *)
Definition Popen_communicate_wait (args : list string) : Op completed :=
  fun w =>
    match args with
    | [] => (Raise PopenError, w)
    | _ =>
        match popen args (ext w) with
        | None => (Raise PopenError, log (EvPopen args) w)
        | Some (c, e') => (Ok c, log (EvPopen args) (set_ext e' w))
        end
    end.

(** [os.path.exists] *)
Definition os_path_exists (p : string) : Op bool :=
  emit (EvPathExists p) ;;
  fun w => (Ok (bool_decide (is_Some (fs w !! p))), w).

(** [os.unlink]: it removes a file, and raises when there is nothing at the
    path, when a directory is there, or when the file cannot be removed. *)
Definition os_unlink (p : string) : Op unit :=
  emit (EvUnlink p) ;;
  fun w =>
    match fs w !! p with
    | None => (Raise (OSError p), w)
    | Some Directory => (Raise (OSError p), w)
    | Some _ =>
        if bool_decide (p ∈ undeletable w) then (Raise (OSError p), w)
        else (Ok tt, set_fs (delete p (fs w)) w)
    end.

(** *** The sqlite3 module *)

(** [sqlite3.connect(p)]: it raises [OperationalError] when the file cannot
    be opened or created; otherwise the file is created, empty, when it is
    missing.  The connection is known by its path. *)
Definition sqlite3_connect (p : string) : Op string :=
  emit (EvConnect p) ;;
  fun w =>
    if bool_decide (p ∈ unopenable w)
    then (Raise (OperationalError "unable to open database file"), w)
    else
      match fs w !! p with
      | Some Directory =>
          (Raise (OperationalError "unable to open database file"), w)
      | Some _ => (Ok p, w)
      | None => (Ok p, set_fs (<[p := SqliteDb []]> (fs w)) w)
      end.

(** [conn.execute(sql)] *)
Definition conn_execute (conn sql : string) : Op unit :=
  emit (EvExecute conn sql) ;;
  fun w =>
    match fs w !! conn with
    | None | Some Directory =>
        (Raise (OperationalError "unable to open database file"), w)
    | Some NotADb => (Raise (DatabaseError "file is not a database"), w)
    | Some (SqliteDb ts) =>
        match parse_sql sql with
        | None => (Raise (OperationalError "syntax error"), w)
        | Some (CreateTable t) =>
            if has_table t ts
            then (Raise (OperationalError "table already exists"), w)
            else (Ok tt, set_fs (<[conn := SqliteDb (ts ++ [t])]> (fs w)) w)
        | Some (SelectFrom t) =>
            if has_table t ts
            then (Ok tt, w)
            else (Raise (OperationalError "no such table"), w)
        end
    end.

(** [with conn: body]: commit when the body ends, roll back to the state at
    entry and raise again when it raises. *)
Definition with_conn {A} (conn : string) (body : Op A) : Op A :=
  fun w =>
    match body w with
    | (Ok a, w') => (Ok a, log (EvCommit conn) w')
    | (Raise e, w') =>
        (Raise e,
         log (EvRollback conn)
           (set_fs match fs w !! conn with
                   | Some f => <[conn := f]> (fs w')
                   | None => fs w'
                   end w'))
    end.

(** [conn.close()] *)
Definition conn_close (conn : string) : Op unit := emit (EvClose conn).

(** *** db_helpers.py *)

Definition run_cmd (args : list string) : Op CmdResult :=
  c <- Popen_communicate_wait args ;;
  ret {| status_code := returncode c;
         std_out := stdoutdata c;
         std_err := stderrdata c |}.

Definition run_mysql (args : list string) : Op CmdResult :=
  let user := USER cfg in
  let args := if truthy user then "-u" :: pystr user :: args else args in
  let args := "mysql" :: args in
  run_cmd args.

Definition skip_if_sqlite_in_memory : Op unit :=
  if String.eqb (ENGINE cfg) "django.db.backends.sqlite3" &&
     String.eqb (NAME cfg) ":memory:"
  then raise (Skipped "Do not test db reuse since database does not support it")
  else ret tt.

Definition engine_is (e : string) : bool := String.eqb (get_db_engine cfg) e.

Definition cannot_be_tested : exn :=
  AssertionError (get_db_engine cfg +:+ " cannot be tested properly!").

(** [drop_database(name, suffix)].  The default of [name] is
    [Some (TEST_DB_NAME cfg)], see [drop_database_default]. *)
Definition drop_database (name suffix : pyarg) : Op unit :=
  py_assert (xorb (truthy name) (truthy suffix))
            "name and suffix cannot be used together" ;;
  let name := if truthy suffix then fmt_underscore name suffix
              else pystr name in
  if engine_is "postgresql_psycopg2" then
    r <- run_cmd ["psql"; "postgres"; "-c"; "DROP DATABASE " +:+ name] ;;
    ok <- (out <- decode (std_out r) ;;
           if py_in "DROP DATABASE" out then ret true
           else (err <- decode (std_err r) ;;
                 ret (py_in "does not exist" err))) ;;
    py_assert ok ""
  else if engine_is "mysql" then
    r <- run_mysql ["-e"; "DROP DATABASE " +:+ name] ;;
    ok <- (err <- decode (std_err r) ;;
           if py_in "database doesn't exist" err then ret true
           else ret (status_code r =? 0)%Z) ;;
    py_assert ok ""
  else if engine_is "sqlite3" then
    if String.eqb name ":memory:" then
      raise (AssertionError "sqlite in-memory database cannot be dropped!")
    else
      b <- os_path_exists name ;;
      if b then os_unlink name else ret tt
  else raise cannot_be_tested.

(** [drop_database(suffix=suffix)], with [name] left at its default. *)
Definition drop_database_default (suffix : pyarg) : Op unit :=
  drop_database (Some (TEST_DB_NAME cfg)) suffix.

Definition db_exists (db_suffix : pyarg) : Op bool :=
  let name := TEST_DB_NAME cfg in
  let name := if truthy db_suffix
              then fmt_underscore (Some name) db_suffix else name in
  if engine_is "postgresql_psycopg2" then
    r <- run_cmd ["psql"; name; "-c"; "SELECT 1"] ;;
    ret (status_code r =? 0)%Z
  else if engine_is "mysql" then
    r <- run_mysql [name; "-e"; "SELECT 1"] ;;
    ret (status_code r =? 0)%Z
  else if engine_is "sqlite3" then
    if String.eqb (TEST_DB_NAME cfg) ":memory:" then
      raise (AssertionError
               "sqlite in-memory database cannot be checked for existence!")
    else os_path_exists name
  else raise cannot_be_tested.

Definition mark_database : Op unit :=
  if engine_is "postgresql_psycopg2" then
    r <- run_cmd ["psql"; TEST_DB_NAME cfg; "-c"; "CREATE TABLE mark_table();"] ;;
    py_assert (status_code r =? 0)%Z ""
  else if engine_is "mysql" then
    r <- run_mysql [TEST_DB_NAME cfg; "-e"; "CREATE TABLE mark_table(kaka int);"] ;;
    py_assert (status_code r =? 0)%Z ""
  else if engine_is "sqlite3" then
    if String.eqb (TEST_DB_NAME cfg) ":memory:" then
      raise (AssertionError "sqlite in-memory database cannot be marked!")
    else
      conn <- sqlite3_connect (TEST_DB_NAME cfg) ;;
      try_finally
        (with_conn conn
           (conn_execute conn "CREATE TABLE mark_table(kaka int);"))
        (conn_close conn)
  else raise cannot_be_tested.

Definition mark_exists : Op bool :=
  if engine_is "postgresql_psycopg2" then
    r <- run_cmd ["psql"; TEST_DB_NAME cfg; "-c"; "SELECT 1 FROM mark_table"] ;;
    ret (negb (Nat.eqb (length (std_out r)) 0))
  else if engine_is "mysql" then
    r <- run_mysql [TEST_DB_NAME cfg; "-e"; "SELECT 1 FROM mark_table"] ;;
    ret (status_code r =? 0)%Z
  else if engine_is "sqlite3" then
    if String.eqb (TEST_DB_NAME cfg) ":memory:" then
      raise (AssertionError
               "sqlite in-memory database cannot be checked for mark!")
    else
      conn <- sqlite3_connect (TEST_DB_NAME cfg) ;;
      try_finally
        (except_OperationalError
           (with_conn conn
              (conn_execute conn "SELECT 1 FROM mark_table" ;; ret true))
           (ret false))
        (conn_close conn)
  else raise cannot_be_tested.

End Helpers.

Arguments ext {Ext} w.
Arguments fs {Ext} w.
Arguments unopenable {Ext} w.
Arguments undeletable {Ext} w.
Arguments trace {Ext} w.
Arguments set_ext {Ext} e w.
Arguments set_fs {Ext} f w.
Arguments log {Ext} e w.

(** ** The transaction probe *)

(** A row of [app.models.Item]. *)
Record Item := {
  pk : nat;
  item_name : string
}.

(** What the probe sees of Django: the default connection and the table of
    [Item].  The table has the rows that are committed and, after them,
    the rows written on the connection that are not committed yet, which a
    rollback discards unless transactions are disabled.  A new row gets a
    key that is above every key in the table and above [key_floor].  SQLite
    hands out the key after the greatest one in the table, which is
    [key_floor] 0; PostgreSQL and MySQL take keys from a counter that never
    comes back to a key it has given, be the row rolled back or deleted
    since, which is a [key_floor] of any size.  The counter is not followed
    from one insertion to the next: of a new key the properties only use
    that it is not in the table. *)
Record Django := {
  (* [connection.in_atomic_block], when the connection has the attribute *)
  in_atomic_block : option bool;
  (* [transaction.rollback] does nothing: transactions are disabled *)
  rollback_is_noop : bool;
  (* the committed rows of [Item] *)
  committed : list Item;
  (* the rows of [Item] written on the connection and not committed *)
  pending : list Item;
  key_floor : nat
}.

(** The rows of [Item] that a query on the connection sees. *)
Definition items (d : Django) : list Item := committed d ++ pending d.

Definition fresh_pk (floor : nat) (rows : list Item) : nat :=
  S (Nat.max floor (list_max (map pk rows))).

(** [with transaction.commit_manually(): body].  Entering the block commits
    nothing and snapshots nothing: what the connection has written before
    stays uncommitted.  The block is left without more ado, for its body
    ends with a rollback; where the test case has disabled [rollback], it
    has disabled entering and leaving transaction management with it. *)
Definition with_commit_manually {A} (body : M Django A) : M Django A := body.

(** [Item.objects.create(name=n)], where nothing is committed for it. *)
Definition Item_objects_create (n : string) : M Django Item :=
  fun d =>
    let it := {| pk := fresh_pk (key_floor d) (items d); item_name := n |} in
    (Ok it, {| in_atomic_block := in_atomic_block d;
               rollback_is_noop := rollback_is_noop d;
               committed := committed d;
               pending := pending d ++ [it];
               key_floor := key_floor d |}).

(** [transaction.rollback()]: every uncommitted change of the connection is
    gone, unless transactions are disabled. *)
Definition transaction_rollback : M Django unit :=
  fun d =>
    if rollback_is_noop d then (Ok tt, d)
    else
      (Ok tt, {| in_atomic_block := in_atomic_block d;
                 rollback_is_noop := rollback_is_noop d;
                 committed := committed d;
                 pending := [];
                 key_floor := key_floor d |}).

(** [Item.objects.get(name=n)] *)
Definition Item_objects_get (n : string) : M Django Item :=
  fun d =>
    match filter (fun it => item_name it = n) (items d) with
    | [] => (Raise DoesNotExist, d)
    | [it] => (Ok it, d)
    | _ => (Raise MultipleObjectsReturned, d)
    end.

(** [item.delete()]: the row with the key of [it] is no longer in the
    table, be it committed or not. *)
Definition Item_delete (it : Item) : M Django unit :=
  fun d =>
    (Ok tt, {| in_atomic_block := in_atomic_block d;
               rollback_is_noop := rollback_is_noop d;
               committed := filter (fun r => pk r ≠ pk it) (committed d);
               pending := filter (fun r => pk r ≠ pk it) (pending d);
               key_floor := key_floor d |}).

(** [try: x = body / except Item.DoesNotExist: handler / else: els] *)
Definition try_except_DoesNotExist_else {A B}
    (body : M Django A) (handler : M Django B) (els : A -> M Django B)
    : M Django B :=
  fun d =>
    match body d with
    | (Ok a, d') => els a d'
    | (Raise DoesNotExist, d') => handler d'
    | (Raise e, d') => (Raise e, d')
    end.

Definition noop_transactions : M Django bool :=
  fun d =>
    match in_atomic_block d with
    | Some b => ret b d
    | None =>
        (with_commit_manually
           (Item_objects_create "transaction_noop_test" ;;
            transaction_rollback) ;;
         try_except_DoesNotExist_else
           (Item_objects_get "transaction_noop_test")
           (ret false)
           (fun item => Item_delete item ;; ret true)) d
    end.

(** The probe in the words of the specification: insert a row inside a
    transaction, roll back, then check whether the row is still visible. *)
Definition probe_row_still_visible (d : Django) : bool :=
  match with_commit_manually
          (it <- Item_objects_create "transaction_noop_test" ;;
           transaction_rollback ;;
           ret it) d with
  | (Ok it, d') => existsb (fun r => Nat.eqb (pk r) (pk it)) (items d')
  | (Raise _, _) => false
  end.

(** ** Test doubles

    A scripted stand-in for the command-line clients: each started process
    takes the next canned outcome; [None], or an exhausted script, is a
    process that cannot be started. *)
Definition script := list (option completed).

Definition scripted_popen (args : list string) (s : script)
    : option (completed * script) :=
  match s with
  | Some c :: rest => Some (c, rest)
  | _ => None
  end.

(** Bytes read as text, one character a byte: every byte can be read. *)
Definition latin1_text (b : list byte) : option string :=
  Some (string_of_list_byte b).

(** Bytes read as ASCII text: a byte above 127 cannot be read. *)
Definition ascii_text (b : list byte) : option string :=
  if forallb (fun x => N.ltb (Byte.to_N x) 128) b
  then Some (string_of_list_byte b) else None.

Definition bytes_of (s : string) : list byte := list_byte_of_string s.

Definition settings_for (engine name : string) (test_name : pyarg) : Settings :=
  {| ENGINE := engine; NAME := name; TEST_NAME := test_name; USER := None |}.

Definition sqlite_file_settings : Settings :=
  settings_for "django.db.backends.sqlite3" "/tmp/db.sqlite3" None.

Definition sqlite_memory_settings : Settings :=
  settings_for "django.db.backends.sqlite3" ":memory:" (Some ":memory:").

Definition postgres_settings : Settings :=
  settings_for "django.db.backends.postgresql_psycopg2" "pytest_django" None.

Definition mysql_settings : Settings :=
  {| ENGINE := "django.db.backends.mysql"; NAME := "pytest_django";
     TEST_NAME := None; USER := Some "root" |}.

Definition oracle_settings : Settings :=
  settings_for "django.db.backends.oracle" "pytest_django" None.

Definition world0 (s : script) (files : gmap string file) : World script :=
  {| ext := s; fs := files; unopenable := ∅; undeletable := ∅; trace := [] |}.

(** The world [world0 s files] where sqlite3 can neither open nor create a
    file at [p], and what is at [p] cannot be unlinked. *)
Definition world_without_access (s : script) (files : gmap string file)
    (p : string) : World script :=
  {| ext := s; fs := files; unopenable := {[ p ]}; undeletable := {[ p ]};
     trace := [] |}.

(** No client can be started and there is no file. *)
Definition bare_world : World script := world0 [] ∅.

(** Outcomes of clients. *)
Definition exits (code : Z) (out err : string) : completed :=
  {| returncode := code; stdoutdata := bytes_of out; stderrdata := bytes_of err |}.

(** The path of the sqlite test database of [sqlite_file_settings]. *)
Definition sqlite_path : string := "test_/tmp/db.sqlite3_inner".


(** The database name [db_exists] looks at. *)
Definition suffixed_name (cfg : Settings) (db_suffix : pyarg) : string :=
  if truthy db_suffix
  then TEST_DB_NAME cfg +:+ "_" +:+ pystr db_suffix
  else TEST_DB_NAME cfg.

(** The database name [drop_database] drops. *)
Definition dropped_name (name suffix : pyarg) : string :=
  if truthy suffix then pystr name +:+ "_" +:+ pystr suffix else pystr name.

(** The argument vector [run_mysql] hands to [run_cmd]. *)
Definition mysql_argv (cfg : Settings) (args : list string) : list string :=
  "mysql" ::
  (if truthy (USER cfg) then "-u" :: pystr (USER cfg) :: args else args).

(** The argument vectors of the clients asked to drop database [n]. *)
Definition psql_drop_argv (n : string) : list string :=
  ["psql"; "postgres"; "-c"; "DROP DATABASE " +:+ n].

Definition mysql_drop_argv (cfg : Settings) (n : string) : list string :=
  mysql_argv cfg ["-e"; "DROP DATABASE " +:+ n].

(** What the postgres branch of [drop_database] makes of a finished psql:
    the two texts are decoded in turn, the second only when the first does
    not have [DROP DATABASE]. *)
Definition postgres_drop_outcome (force_text : list byte -> option string)
    (c : completed) : result unit :=
  match force_text (stdoutdata c) with
  | None => Raise DjangoUnicodeDecodeError
  | Some out =>
      if py_in "DROP DATABASE" out then Ok tt
      else match force_text (stderrdata c) with
           | None => Raise DjangoUnicodeDecodeError
           | Some err =>
               if py_in "does not exist" err then Ok tt
               else Raise (AssertionError "")
           end
  end.

(** What the mysql branch of [drop_database] makes of a finished client. *)
Definition mysql_drop_outcome (force_text : list byte -> option string)
    (c : completed) : result unit :=
  match force_text (stderrdata c) with
  | None => Raise DjangoUnicodeDecodeError
  | Some err =>
      if py_in "database doesn't exist" err || (returncode c =? 0)%Z
      then Ok tt else Raise (AssertionError "")
  end.

(** The engines the helpers know. *)
Definition supported_engine (e : string) : bool :=
  String.eqb e "postgresql_psycopg2" || String.eqb e "mysql" ||
  String.eqb e "sqlite3".

(** What a client started with [argv] in world [w] leaves behind. *)
Definition client_run {Ext} (popen : list string -> Ext -> option (completed * Ext))
    (argv : list string) (w : World Ext) : option completed :=
  match argv with
  | [] => None
  | _ => fst <$> popen argv (ext w)
  end.

(** The world after a client was started with [argv] in world [w]. *)
Definition after_client {Ext} (popen : list string -> Ext -> option (completed * Ext))
    (argv : list string) (w : World Ext) : World Ext :=
  log (EvPopen argv)
    (set_ext match popen argv (ext w) with
             | Some (_, e') => e'
             | None => ext w
             end w).

(** The [CmdResult] that [run_cmd] makes of a finished process. *)
Definition CmdResult_of (c : completed) : CmdResult :=
  {| status_code := returncode c;
     std_out := stdoutdata c;
     std_err := stderrdata c |}.

(** The world [w] with the files [f] and the events [evs] after those of
    [w]. *)
Definition world_after {Ext} (f : gmap string file) (evs : list event)
    (w : World Ext) : World Ext :=
  {| ext := ext w; fs := f; unopenable := unopenable w;
     undeletable := undeletable w; trace := trace w ++ evs |}.

(** [os.unlink(p)] would remove what is at [p]. *)
Definition unlinkable {Ext} (p : string) (w : World Ext) : bool :=
  match fs w !! p with
  | None | Some Directory => false
  | Some _ => negb (bool_decide (p ∈ undeletable w))
  end.

(** [sqlite3.connect(p)] would give a connection. *)
Definition connectable {Ext} (p : string) (w : World Ext) : bool :=
  negb (bool_decide (p ∈ unopenable w)) &&
  match fs w !! p with
  | Some Directory => false
  | _ => true
  end.

(** The tables of the sqlite database at [p]; a missing file is an empty
    database as soon as somebody connects. *)
Definition sqlite_tables {Ext} (p : string) (w : World Ext) : option (list string) :=
  match fs w !! p with
  | None => Some []
  | Some (SqliteDb ts) => Some ts
  | Some NotADb | Some Directory => None
  end.

(** A row named like the probe's. *)
Definition probe_named (it : Item) : bool :=
  String.eqb (item_name it) "transaction_noop_test".

(** The row the probe inserts. *)
Definition probe_row (d : Django) : Item :=
  {| pk := fresh_pk (key_floor d) (items d);
     item_name := "transaction_noop_test" |}.

(** The uncommitted rows once the probe has inserted its row and rolled
    back. *)
Definition pending_after_rollback (d : Django) : list Item :=
  if rollback_is_noop d then pending d ++ [probe_row d] else [].

(** The table once the probe has inserted its row and rolled back. *)
Definition after_rollback (d : Django) : list Item :=
  committed d ++ pending_after_rollback d.

(** Django with other rows in the table of [Item]. *)
Definition with_rows (d : Django) (rows uncommitted : list Item) : Django :=
  {| in_atomic_block := in_atomic_block d;
     rollback_is_noop := rollback_is_noop d;
     committed := rows;
     pending := uncommitted;
     key_floor := key_floor d |}.

(** Django once the probe is over on a table without a row of its name. *)
Definition probed (d : Django) : Django :=
  with_rows d (committed d) (if rollback_is_noop d then pending d else []).

(** An older Django, the rows all committed. *)
Definition legacy_django (noop : bool) (rows : list Item) : Django :=
  {| in_atomic_block := None; rollback_is_noop := noop;
     committed := rows; pending := []; key_floor := 0 |}.

(** An older Django where the caller has written [uncommitted] and not
    committed, with keys handed out above [floor]. *)
Definition legacy_django_pending (noop : bool) (rows uncommitted : list Item)
    (floor : nat) : Django :=
  {| in_atomic_block := None; rollback_is_noop := noop;
     committed := rows; pending := uncommitted; key_floor := floor |}.

Definition atomic_django (in_block noop : bool) (rows : list Item) : Django :=
  {| in_atomic_block := Some in_block; rollback_is_noop := noop;
     committed := rows; pending := []; key_floor := 0 |}.

(** [c in s] for a one-character string [c]. *)
Fixpoint has_char (c : ascii) (s : string) : bool :=
  match s with
  | EmptyString => false
  | String a s' => Ascii.eqb a c || has_char c s'
  end.

(** Settings with [engine] and the names of the database and of the test
    database. *)
Definition settings_named (engine name : string) (test_name : pyarg) : Settings :=
  {| ENGINE := engine; NAME := name; TEST_NAME := test_name; USER := None |}.

(** The argument vectors of the processes started in a trace, in order. *)
Definition popens (tr : list event) : list (list string) :=
  flat_map (fun e => match e with EvPopen argv => [argv] | _ => [] end) tr.

(** Unfolding the helpers by name. *)
Ltac unfold_drop_database := unfold drop_database_default, drop_database.
Ltac unfold_db_exists := unfold db_exists.
Ltac unfold_mark_database := unfold mark_database.
Ltac unfold_mark_exists := unfold mark_exists.
Ltac unfold_run := unfold run_mysql, run_cmd, Popen_communicate_wait.
Ltac unfold_skip := unfold skip_if_sqlite_in_memory.

(** * Properties *)

(** ** Strings *)

Lemma length_append (a b : string) :
  String.length (a +:+ b) = String.length a + String.length b.
Proof. induction a as [|c a IH]; simpl; [reflexivity | now rewrite IH]. Qed.

Lemma prefix_append (a b : string) : String.prefix a (a +:+ b) = true.
Proof.
  induction a as [|c a IH]; simpl.
  - now destruct b.
  - destruct (ascii_dec c c) as [_|N]; [exact IH | now elim N].
Qed.

Lemma py_in_prefix (a b : string) : String.prefix a b = true -> py_in a b = true.
Proof. intros H. destruct b; cbn [py_in]; rewrite H; reflexivity. Qed.

Lemma py_in_append (a b : string) : py_in a (a +:+ b) = true.
Proof. apply py_in_prefix, prefix_append. Qed.

Lemma truthy_Some (s : string) : truthy (Some s) = true <-> s <> "".
Proof.
  unfold truthy. rewrite negb_true_iff. apply String.eqb_neq.
Qed.

(** ** Module-level names *)

Lemma inner_not_memory (s : string) : s +:+ "_inner" <> ":memory:".
Proof.
  intros H.
  assert (L : String.length s = 2).
  { apply (f_equal String.length) in H. rewrite length_append in H.
    simpl in H. lia. }
  destruct s as [|a [|b [|c s]]]; simpl in L; discriminate.
Qed.

Lemma test_prefix_not_memory (s : string) : "test_" +:+ s <> ":memory:".
Proof. simpl. discriminate. Qed.

(** [TEST_DB_NAME] is the in-memory name exactly when the settings name the
    test database [':memory:']. *)
Lemma TEST_DB_NAME_memory (cfg : Settings) :
  TEST_DB_NAME cfg = ":memory:" <-> TEST_NAME cfg = Some ":memory:".
Proof.
  unfold TEST_DB_NAME, TEST_DB_NAME_0.
  destruct (TEST_NAME cfg) as [t|] eqn:E; simpl.
  - destruct (String.eqb_spec t "") as [->|Ht]; simpl.
    + destruct (String.eqb_spec ("test_" +:+ NAME cfg) ":memory:") as [H|_].
      * now apply test_prefix_not_memory in H.
      * split; [intros H; now apply inner_not_memory in H | discriminate].
    + destruct (String.eqb_spec t ":memory:") as [->|Hm].
      * split; reflexivity.
      * split; [intros H; now apply inner_not_memory in H | congruence].
  - destruct (String.eqb_spec ("test_" +:+ NAME cfg) ":memory:") as [H|_].
    + now apply test_prefix_not_memory in H.
    + split; [intros H; now apply inner_not_memory in H | discriminate].
Qed.

(** The default of [name] is never empty. *)
Lemma TEST_DB_NAME_truthy (cfg : Settings) : truthy (Some (TEST_DB_NAME cfg)) = true.
Proof.
  apply truthy_Some. unfold TEST_DB_NAME.
  destruct (String.eqb_spec (TEST_DB_NAME_0 cfg) ":memory:") as [->|_].
  - discriminate.
  - intros H. apply (f_equal String.length) in H.
    rewrite length_append in H. simpl in H. lia.
Qed.

Lemma last_ascii_append (a : string) (c : ascii) (b : string) :
  last_ascii (a +:+ String c b) = last_ascii (String c b).
Proof.
  induction a as [|x a IH]; [reflexivity|].
  change (String x a +:+ String c b) with (String x (a +:+ String c b)).
  destruct (a +:+ String c b) as [|y r] eqn:E.
  - destruct a; discriminate.
  - change (last_ascii (String y r) = last_ascii (String c b)). exact IH.
Qed.

Lemma cannot_be_tested_other_message (e : string) :
  e +:+ " cannot be tested properly!" <> "name and suffix cannot be used together".
Proof.
  intros H. apply (f_equal last_ascii) in H.
  rewrite last_ascii_append in H. discriminate.
Qed.

(** ** The four operations *)

Section HelperProperties.

Variable Ext : Type.
Variable popen : list string -> Ext -> option (completed * Ext).
Variable force_text : list byte -> option string.
Variable cfg : Settings.

Local Abbreviation drop_database := (drop_database Ext popen force_text cfg).
Local Abbreviation drop_database_default :=
  (drop_database_default Ext popen force_text cfg).
Local Abbreviation db_exists := (db_exists Ext popen cfg).
Local Abbreviation mark_database := (mark_database Ext popen cfg).
Local Abbreviation mark_exists := (mark_exists Ext popen cfg).
Local Abbreviation run_cmd := (run_cmd Ext popen).
Local Abbreviation run_mysql := (run_mysql Ext popen cfg).

Lemma engine_is_eq (e : string) : get_db_engine cfg = e -> engine_is cfg e = true.
Proof. intros <-. apply String.eqb_refl. Qed.

Lemma unsupported_engine_is :
  supported_engine (get_db_engine cfg) = false ->
  engine_is cfg "postgresql_psycopg2" = false /\
  engine_is cfg "mysql" = false /\
  engine_is cfg "sqlite3" = false.
Proof.
  unfold supported_engine, engine_is. intros H.
  apply orb_false_elim in H as [H H3]. apply orb_false_elim in H as [H1 H2].
  auto.
Qed.

Lemma sqlite3_engine_is :
  get_db_engine cfg = "sqlite3" ->
  engine_is cfg "postgresql_psycopg2" = false /\
  engine_is cfg "mysql" = false /\
  engine_is cfg "sqlite3" = true.
Proof. unfold engine_is. intros ->. now vm_compute. Qed.

Lemma mysql_engine_is :
  get_db_engine cfg = "mysql" ->
  engine_is cfg "postgresql_psycopg2" = false /\
  engine_is cfg "mysql" = true.
Proof. unfold engine_is. intros ->. now vm_compute. Qed.

Lemma postgres_engine_is :
  get_db_engine cfg = "postgresql_psycopg2" ->
  engine_is cfg "postgresql_psycopg2" = true.
Proof. apply engine_is_eq. Qed.

(** The arguments are checked before anything else. *)
Lemma drop_database_assert (name suffix : pyarg) (w : World Ext) :
  truthy name = truthy suffix ->
  drop_database name suffix w =
  (Raise (AssertionError "name and suffix cannot be used together"), w).
Proof.
  intros H. unfold_drop_database. unfold bind, py_assert.
  rewrite H, xorb_nilpotent. reflexivity.
Qed.

(** Once the arguments are accepted, the function goes on with the name it
    computed. *)
Lemma drop_database_accepted (name suffix : pyarg) (w : World Ext) :
  truthy name <> truthy suffix ->
  drop_database name suffix w =
  (let n := dropped_name name suffix in
   if engine_is cfg "postgresql_psycopg2" then
     r <- run_cmd ["psql"; "postgres"; "-c"; "DROP DATABASE " +:+ n] ;;
     ok <- (out <- decode Ext force_text (std_out r) ;;
            if py_in "DROP DATABASE" out then ret true
            else (err <- decode Ext force_text (std_err r) ;;
                  ret (py_in "does not exist" err))) ;;
     py_assert ok ""
   else if engine_is cfg "mysql" then
     r <- run_mysql ["-e"; "DROP DATABASE " +:+ n] ;;
     ok <- (err <- decode Ext force_text (std_err r) ;;
            if py_in "database doesn't exist" err then ret true
            else ret (status_code r =? 0)%Z) ;;
     py_assert ok ""
   else if engine_is cfg "sqlite3" then
     if String.eqb n ":memory:" then
       raise (AssertionError "sqlite in-memory database cannot be dropped!")
     else
       b <- os_path_exists Ext n ;;
       if b then os_unlink Ext n else ret tt
   else raise (cannot_be_tested cfg)) w.
Proof.
  intros H. unfold_drop_database. unfold dropped_name, fmt_underscore.
  unfold bind at 1. unfold py_assert at 1.
  replace (xorb (truthy name) (truthy suffix)) with true; [reflexivity|].
  destruct (truthy name), (truthy suffix); try reflexivity; now elim H.
Qed.

Lemma run_cmd_unfold (args : list string) (w : World Ext) :
  run_cmd args w =
  match args with
  | [] => (Raise PopenError, w)
  | _ =>
      match popen args (ext w) with
      | Some (c, e') =>
          (Ok {| status_code := returncode c;
                 std_out := stdoutdata c;
                 std_err := stderrdata c |},
           log (EvPopen args) (set_ext e' w))
      | None => (Raise PopenError, log (EvPopen args) w)
      end
  end.
Proof.
  unfold_run. unfold bind, ret.
  destruct args as [|a args]; [reflexivity|].
  destruct (popen (a :: args) (ext w)) as [[c e']|]; reflexivity.
Qed.

Lemma run_cmd_result (args : list string) (w : World Ext) :
  fst (run_cmd args w) =
  match client_run popen args w with
  | Some c => Ok {| status_code := returncode c;
                    std_out := stdoutdata c;
                    std_err := stderrdata c |}
  | None => Raise PopenError
  end.
Proof.
  rewrite run_cmd_unfold. unfold client_run.
  destruct args as [|a args]; [reflexivity|].
  destruct (popen (a :: args) (ext w)) as [[c e']|]; reflexivity.
Qed.

(** After a client has run, the helper goes on with its [CmdResult]. *)
Lemma bind_run_cmd {B} (args : list string) (k : CmdResult -> M (World Ext) B)
    (w : World Ext) :
  fst ((r <- run_cmd args ;; k r) w) =
  match args with
  | [] => Raise PopenError
  | _ =>
      match popen args (ext w) with
      | Some (c, e') =>
          fst (k {| status_code := returncode c;
                    std_out := stdoutdata c;
                    std_err := stderrdata c |}
                 (log (EvPopen args) (set_ext e' w)))
      | None => Raise PopenError
      end
  end.
Proof.
  unfold bind at 1. rewrite run_cmd_unfold.
  destruct args as [|a args]; [reflexivity|].
  destruct (popen (a :: args) (ext w)) as [[c e']|]; reflexivity.
Qed.

Lemma bind_run_mysql {B} (args : list string) (k : CmdResult -> M (World Ext) B)
    (w : World Ext) :
  fst ((r <- run_mysql args ;; k r) w) =
  match popen (mysql_argv cfg args) (ext w) with
  | Some (c, e') =>
      fst (k {| status_code := returncode c;
                std_out := stdoutdata c;
                std_err := stderrdata c |}
             (log (EvPopen (mysql_argv cfg args)) (set_ext e' w)))
  | None => Raise PopenError
  end.
Proof.
  change (run_mysql args) with (run_cmd (mysql_argv cfg args)).
  rewrite bind_run_cmd. reflexivity.
Qed.

Lemma py_assert_result {S} (c : bool) (msg : string) (w : S) :
  py_assert c msg w = (if c then Ok tt else Raise (AssertionError msg), w).
Proof. now destruct c. Qed.

(** The client is started, runs, and the helper goes on with its
    [CmdResult] in the world the client left. *)
Lemma run_cmd_bind {B} (args : list string) (k : CmdResult -> M (World Ext) B)
    (w : World Ext) :
  args <> [] ->
  (r <- run_cmd args ;; k r) w =
  match popen args (ext w) with
  | Some (c, e') => k (CmdResult_of c) (after_client popen args w)
  | None => (Raise PopenError, after_client popen args w)
  end.
Proof.
  intros Hne. unfold bind at 1. rewrite run_cmd_unfold. unfold after_client.
  destruct args as [|a args]; [now elim Hne|].
  destruct (popen (a :: args) (ext w)) as [[c e']|]; reflexivity.
Qed.

Lemma postgres_assert_outcome (c : completed) (w : World Ext) :
  (ok <- (out <- decode Ext force_text (std_out (CmdResult_of c)) ;;
          if py_in "DROP DATABASE" out then ret true
          else (err <- decode Ext force_text (std_err (CmdResult_of c)) ;;
                ret (py_in "does not exist" err))) ;;
   py_assert ok "") w =
  (postgres_drop_outcome force_text c, w).
Proof.
  unfold bind, decode, postgres_drop_outcome, ret, raise. cbn.
  destruct (force_text (stdoutdata c)) as [out|]; [|reflexivity].
  destruct (py_in "DROP DATABASE" out); [reflexivity|].
  destruct (force_text (stderrdata c)) as [err|]; [|reflexivity].
  destruct (py_in "does not exist" err); reflexivity.
Qed.

Lemma mysql_assert_outcome (c : completed) (w : World Ext) :
  (ok <- (err <- decode Ext force_text (std_err (CmdResult_of c)) ;;
          if py_in "database doesn't exist" err then ret true
          else ret (status_code (CmdResult_of c) =? 0)%Z) ;;
   py_assert ok "") w =
  (mysql_drop_outcome force_text c, w).
Proof.
  unfold bind, decode, mysql_drop_outcome, ret, raise. cbn.
  destruct (force_text (stderrdata c)) as [err|]; [|reflexivity].
  destruct (py_in "database doesn't exist" err); [reflexivity|].
  cbn. destruct (returncode c =? 0)%Z; reflexivity.
Qed.

Lemma drop_database_postgres (name suffix : pyarg) (w : World Ext) :
  truthy name <> truthy suffix ->
  get_db_engine cfg = "postgresql_psycopg2" ->
  drop_database name suffix w =
  (match client_run popen (psql_drop_argv (dropped_name name suffix)) w with
   | Some c => postgres_drop_outcome force_text c
   | None => Raise PopenError
   end,
   after_client popen (psql_drop_argv (dropped_name name suffix)) w).
Proof.
  intros Hx He. rewrite (drop_database_accepted _ _ _ Hx). cbv zeta.
  rewrite (postgres_engine_is He).
  rewrite run_cmd_bind by discriminate.
  unfold client_run, psql_drop_argv.
  destruct (popen _ (ext w)) as [[c e']|]; [|reflexivity].
  apply postgres_assert_outcome.
Qed.

Lemma drop_database_mysql (name suffix : pyarg) (w : World Ext) :
  truthy name <> truthy suffix ->
  get_db_engine cfg = "mysql" ->
  drop_database name suffix w =
  (match client_run popen (mysql_drop_argv cfg (dropped_name name suffix)) w with
   | Some c => mysql_drop_outcome force_text c
   | None => Raise PopenError
   end,
   after_client popen (mysql_drop_argv cfg (dropped_name name suffix)) w).
Proof.
  intros Hx He. rewrite (drop_database_accepted _ _ _ Hx). cbv zeta.
  destruct (mysql_engine_is He) as [-> ->].
  change (run_mysql ["-e"; "DROP DATABASE " +:+ dropped_name name suffix])
    with (run_cmd (mysql_drop_argv cfg (dropped_name name suffix))).
  rewrite run_cmd_bind by discriminate.
  unfold client_run, mysql_drop_argv, mysql_argv.
  destruct (popen _ (ext w)) as [[c e']|]; [|reflexivity].
  apply mysql_assert_outcome.
Qed.

(** The sqlite branch: the path is looked up and, when something is there,
    unlinked, which may fail. *)
Lemma drop_database_sqlite_file (name suffix : pyarg) (w : World Ext) :
  truthy name <> truthy suffix ->
  get_db_engine cfg = "sqlite3" ->
  dropped_name name suffix <> ":memory:" ->
  drop_database name suffix w =
  match fs w !! dropped_name name suffix with
  | None => (Ok tt, log (EvPathExists (dropped_name name suffix)) w)
  | Some _ =>
      (if unlinkable (dropped_name name suffix) w then Ok tt
       else Raise (OSError (dropped_name name suffix)),
       set_fs (if unlinkable (dropped_name name suffix) w
               then delete (dropped_name name suffix) (fs w) else fs w)
         (log (EvUnlink (dropped_name name suffix))
            (log (EvPathExists (dropped_name name suffix)) w)))
  end.
Proof.
  intros Hx He Hm. rewrite (drop_database_accepted _ _ _ Hx). cbv zeta.
  destruct (sqlite3_engine_is He) as (-> & -> & ->).
  apply String.eqb_neq in Hm. rewrite Hm. clear Hm.
  generalize (dropped_name name suffix). intros n.
  unfold bind, os_path_exists, os_unlink, emit, log, set_fs, ret, unlinkable. cbn.
  destruct (fs w !! n) as [f|] eqn:E.
  - rewrite bool_decide_eq_true_2 by eauto. cbn. rewrite E.
    destruct f; try reflexivity;
      destruct (bool_decide (n ∈ undeletable w)); reflexivity.
  - rewrite bool_decide_eq_false_2 by (intros [? ?]; discriminate).
    reflexivity.
Qed.

Lemma drop_database_accepted_other_error (name suffix : pyarg) (w : World Ext) :
  truthy name <> truthy suffix ->
  fst (drop_database name suffix w) <>
  Raise (AssertionError "name and suffix cannot be used together").
Proof.
  intros H.
  destruct (String.eqb_spec (get_db_engine cfg) "postgresql_psycopg2") as [E1|E1].
  { rewrite (drop_database_postgres _ _ _ H E1). cbn [fst].
    destruct (client_run popen _ w) as [c|]; [|discriminate].
    unfold postgres_drop_outcome.
    repeat match goal with
           | |- context [match ?x with _ => _ end] => destruct x
           end; discriminate. }
  destruct (String.eqb_spec (get_db_engine cfg) "mysql") as [E2|E2].
  { rewrite (drop_database_mysql _ _ _ H E2). cbn [fst].
    destruct (client_run popen _ w) as [c|]; [|discriminate].
    unfold mysql_drop_outcome.
    repeat match goal with
           | |- context [match ?x with _ => _ end] => destruct x
           end; discriminate. }
  destruct (String.eqb_spec (get_db_engine cfg) "sqlite3") as [E3|E3].
  { destruct (String.eqb_spec (dropped_name name suffix) ":memory:") as [Hm|Hm].
    - rewrite (drop_database_accepted _ _ _ H). cbv zeta.
      destruct (sqlite3_engine_is E3) as (-> & -> & ->).
      rewrite Hm. discriminate.
    - rewrite (drop_database_sqlite_file _ _ _ H E3 Hm).
      destruct (fs w !! _); [|discriminate]. cbn [fst].
      destruct (unlinkable _ w); discriminate. }
  rewrite (drop_database_accepted _ _ _ H). cbv zeta.
  apply String.eqb_neq in E1, E2, E3. unfold engine_is.
  rewrite E1, E2, E3.
  unfold raise, cannot_be_tested. cbn [fst]. intros E.
  injection E as E. now apply cannot_be_tested_other_message in E.
Qed.

(** C8: [drop_database] requires that exactly one of [name] and [suffix] is
    truthy.  When both are truthy or both are falsy it raises
    [AssertionError('name and suffix cannot be used together')] and does
    nothing else (the world is as before); this is so whenever a truthy
    suffix is passed with [name] left at its default, which is never empty.
    When exactly one is truthy, that error is not raised. *)
Theorem drop_database_name_xor_suffix (name suffix : pyarg) (w : World Ext) :
  (truthy name = truthy suffix ->
   drop_database name suffix w =
   (Raise (AssertionError "name and suffix cannot be used together"), w)) /\
  (truthy suffix = true ->
   drop_database_default suffix w =
   (Raise (AssertionError "name and suffix cannot be used together"), w)) /\
  (truthy name <> truthy suffix ->
   fst (drop_database name suffix w) <>
   Raise (AssertionError "name and suffix cannot be used together")).
Proof.
  split; [|split].
  - apply drop_database_assert.
  - intros H. apply drop_database_assert.
    now rewrite TEST_DB_NAME_truthy.
  - apply drop_database_accepted_other_error.
Qed.

(** C3: with the sqlite3 engine and the in-memory test database
    ([TEST_DB_NAME] is [':memory:']), [db_exists], [mark_database] and
    [mark_exists] raise an [AssertionError] that says what cannot be done,
    and so does [drop_database] for the name [':memory:'] (its default
    here; with the default name it raises an [AssertionError] whatever the
    suffix); none of them touches the world. *)
Theorem sqlite_in_memory_fails_fast (db_suffix : pyarg) (w : World Ext) :
  get_db_engine cfg = "sqlite3" ->
  TEST_DB_NAME cfg = ":memory:" ->
  db_exists db_suffix w =
    (Raise (AssertionError
              "sqlite in-memory database cannot be checked for existence!"), w) /\
  mark_database w =
    (Raise (AssertionError "sqlite in-memory database cannot be marked!"), w) /\
  mark_exists w =
    (Raise (AssertionError
              "sqlite in-memory database cannot be checked for mark!"), w) /\
  drop_database_default None w =
    (Raise (AssertionError "sqlite in-memory database cannot be dropped!"), w) /\
  drop_database (Some ":memory:") None w =
    (Raise (AssertionError "sqlite in-memory database cannot be dropped!"), w) /\
  (forall suffix, exists msg,
     msg <> "" /\
     drop_database_default suffix w = (Raise (AssertionError msg), w)).
Proof.
  intros He Hm. destruct (sqlite3_engine_is He) as (E1 & E2 & E3).
  assert (Hd : drop_database_default None w =
               (Raise (AssertionError
                         "sqlite in-memory database cannot be dropped!"), w)).
  { unfold_drop_database. now rewrite E1, E2, E3, Hm. }
  split; [|split; [|split; [|split; [|split]]]].
  - unfold_db_exists. now rewrite E1, E2, E3, Hm.
  - unfold_mark_database. now rewrite E1, E2, E3, Hm.
  - unfold_mark_exists. now rewrite E1, E2, E3, Hm.
  - exact Hd.
  - unfold_drop_database. now rewrite E1, E2, E3.
  - intros suffix. destruct (truthy suffix) eqn:Hs.
    + exists "name and suffix cannot be used together".
      split; [discriminate|]. apply drop_database_assert.
      now rewrite TEST_DB_NAME_truthy.
    + exists "sqlite in-memory database cannot be dropped!".
      split; [discriminate|]. rewrite <- Hd.
      unfold_drop_database. unfold dropped_name, fmt_underscore.
      now rewrite Hs.
Qed.

(** C2, amended: when the engine is none of [postgresql_psycopg2], [mysql]
    and [sqlite3], the helpers [db_exists], [mark_database] and [mark_exists]
    raise [AssertionError('<engine> cannot be tested properly!')], a message
    that contains the engine's name, and leave the world as it was (no
    command, no file-system action); [drop_database] does the same when
    exactly one of [name] and [suffix] is truthy. *)
Theorem unsupported_engine_fails_fast
    (name suffix db_suffix : pyarg) (w : World Ext) :
  supported_engine (get_db_engine cfg) = false ->
  let msg := get_db_engine cfg +:+ " cannot be tested properly!" in
  py_in (get_db_engine cfg) msg = true /\
  db_exists db_suffix w = (Raise (AssertionError msg), w) /\
  mark_database w = (Raise (AssertionError msg), w) /\
  mark_exists w = (Raise (AssertionError msg), w) /\
  (truthy name <> truthy suffix ->
   drop_database name suffix w = (Raise (AssertionError msg), w)).
Proof.
  intros H msg. destruct (unsupported_engine_is H) as (E1 & E2 & E3).
  repeat split.
  - apply py_in_append.
  - unfold_db_exists. now rewrite E1, E2, E3.
  - unfold_mark_database. now rewrite E1, E2, E3.
  - unfold_mark_exists. now rewrite E1, E2, E3.
  - intros Hx. rewrite (drop_database_accepted _ _ _ Hx). cbv zeta.
    now rewrite E1, E2, E3.
Qed.

(** The client is started, runs, and the helper computes on its outcome. *)
Lemma run_cmd_then {B} (args : list string) (k : CmdResult -> result B)
    (w : World Ext) :
  args <> [] ->
  (r <- run_cmd args ;; fun w' => (k r, w')) w =
  (match client_run popen args w with
   | Some c => k (CmdResult_of c)
   | None => Raise PopenError
   end,
   after_client popen args w).
Proof.
  intros Hne. unfold bind at 1. rewrite run_cmd_unfold.
  unfold client_run, after_client.
  destruct args as [|a args]; [now elim Hne|].
  destruct (popen (a :: args) (ext w)) as [[c e']|]; reflexivity.
Qed.

(** C7, amended: [run_cmd] does not look at the exit status.  Whenever a
    process can be started for the argument list, [run_cmd] returns a
    [CmdResult] whose [status_code], [std_out] and [std_err] are the exit
    status and the captured output of the process, whatever the status;
    when no process can be started (always so for an empty argument list)
    the exception of [subprocess.Popen] comes out of [run_cmd]. *)
Theorem run_cmd_surfaces_outcome (args : list string) (w : World Ext) :
  (forall c, client_run popen args w = Some c ->
     fst (run_cmd args w) =
     Ok {| status_code := returncode c;
           std_out := stdoutdata c;
           std_err := stderrdata c |}) /\
  (client_run popen args w = None -> fst (run_cmd args w) = Raise PopenError) /\
  (args = [] -> run_cmd args w = (Raise PopenError, w)).
Proof.
  repeat split.
  - intros c H. now rewrite run_cmd_result, H.
  - intros H. now rewrite run_cmd_result, H.
  - intros ->. apply run_cmd_unfold.
Qed.

Lemma exit_status_zero_iff (o : option completed) :
  match o with
  | Some c => Ok (returncode c =? 0)%Z
  | None => Raise PopenError
  end = Ok true <->
  exists c, o = Some c /\ returncode c = 0%Z.
Proof.
  destruct o as [c|]; split.
  - intros H. injection H as H. apply Z.eqb_eq in H. eauto.
  - intros (c' & [= <-] & H). now rewrite H.
  - discriminate.
  - intros (c' & H & _). discriminate.
Qed.

Lemma db_exists_postgres (db_suffix : pyarg) (w : World Ext) :
  get_db_engine cfg = "postgresql_psycopg2" ->
  db_exists db_suffix w =
  (match client_run popen ["psql"; suffixed_name cfg db_suffix; "-c"; "SELECT 1"] w with
   | Some c => Ok (returncode c =? 0)%Z
   | None => Raise PopenError
   end,
   after_client popen ["psql"; suffixed_name cfg db_suffix; "-c"; "SELECT 1"] w).
Proof.
  intros He. unfold_db_exists. rewrite (postgres_engine_is He).
  now apply (run_cmd_then _ (fun r => Ok (status_code r =? 0)%Z)).
Qed.

Lemma db_exists_mysql (db_suffix : pyarg) (w : World Ext) :
  get_db_engine cfg = "mysql" ->
  db_exists db_suffix w =
  (match client_run popen
           (mysql_argv cfg [suffixed_name cfg db_suffix; "-e"; "SELECT 1"]) w with
   | Some c => Ok (returncode c =? 0)%Z
   | None => Raise PopenError
   end,
   after_client popen
     (mysql_argv cfg [suffixed_name cfg db_suffix; "-e"; "SELECT 1"]) w).
Proof.
  intros He. unfold_db_exists. destruct (mysql_engine_is He) as [-> ->].
  now apply (run_cmd_then _ (fun r => Ok (status_code r =? 0)%Z)).
Qed.

Lemma db_exists_sqlite_file (db_suffix : pyarg) (w : World Ext) :
  get_db_engine cfg = "sqlite3" ->
  TEST_DB_NAME cfg <> ":memory:" ->
  db_exists db_suffix w =
  (Ok (bool_decide (is_Some (fs w !! suffixed_name cfg db_suffix))),
   log (EvPathExists (suffixed_name cfg db_suffix)) w).
Proof.
  intros He Hm. unfold_db_exists.
  destruct (sqlite3_engine_is He) as (-> & -> & ->).
  apply String.eqb_neq in Hm. rewrite Hm. reflexivity.
Qed.

(** C4: [db_exists(db_suffix)] gives a boolean.  With the sqlite3 engine and
    a database file it is [True] exactly when the path of the (possibly
    suffixed) test database exists; with postgres and mysql it is [True]
    exactly when the client asked to [SELECT 1] in that database ends with
    exit status 0. *)
Theorem db_exists_checks_existence (db_suffix : pyarg) (w : World Ext) :
  let n := suffixed_name cfg db_suffix in
  (get_db_engine cfg = "postgresql_psycopg2" ->
   let argv := ["psql"; n; "-c"; "SELECT 1"] in
   (forall c, client_run popen argv w = Some c ->
      fst (db_exists db_suffix w) = Ok (returncode c =? 0)%Z) /\
   (fst (db_exists db_suffix w) = Ok true <->
    exists c, client_run popen argv w = Some c /\ returncode c = 0%Z) /\
   trace (snd (db_exists db_suffix w)) = (trace w ++ [EvPopen argv])%list) /\
  (get_db_engine cfg = "mysql" ->
   let argv := mysql_argv cfg [n; "-e"; "SELECT 1"] in
   (forall c, client_run popen argv w = Some c ->
      fst (db_exists db_suffix w) = Ok (returncode c =? 0)%Z) /\
   (fst (db_exists db_suffix w) = Ok true <->
    exists c, client_run popen argv w = Some c /\ returncode c = 0%Z) /\
   trace (snd (db_exists db_suffix w)) = (trace w ++ [EvPopen argv])%list) /\
  (get_db_engine cfg = "sqlite3" -> TEST_DB_NAME cfg <> ":memory:" ->
   fst (db_exists db_suffix w) = Ok (bool_decide (is_Some (fs w !! n))) /\
   (fst (db_exists db_suffix w) = Ok true <-> is_Some (fs w !! n)) /\
   fs (snd (db_exists db_suffix w)) = fs w /\
   trace (snd (db_exists db_suffix w)) = (trace w ++ [EvPathExists n])%list).
Proof.
  intros n. split; [|split].
  - intros He argv. rewrite (db_exists_postgres _ _ He). cbn [fst snd].
    fold n argv. split; [|split].
    + now intros c ->.
    + apply exit_status_zero_iff.
    + reflexivity.
  - intros He argv. rewrite (db_exists_mysql _ _ He). cbn [fst snd].
    fold n. fold argv. split; [|split].
    + now intros c ->.
    + apply exit_status_zero_iff.
    + reflexivity.
  - intros He Hm. rewrite (db_exists_sqlite_file _ _ He Hm). cbn [fst snd].
    fold n. repeat split.
    + intros [= H]. now apply bool_decide_eq_true in H.
    + intros H. f_equal. now apply bool_decide_eq_true.
Qed.

Lemma connectable_lookup (p : string) (w : World Ext) :
  connectable p w = true ->
  bool_decide (p ∈ unopenable w) = false /\
  fs w !! p <> Some Directory.
Proof.
  unfold connectable. intros H. apply andb_true_iff in H as [H1 H2].
  apply negb_true_iff in H1. split; [exact H1|].
  intros E. rewrite E in H2. discriminate.
Qed.

Lemma mark_database_sqlite_file (w : World Ext) (ts : list string) :
  get_db_engine cfg = "sqlite3" ->
  TEST_DB_NAME cfg <> ":memory:" ->
  connectable (TEST_DB_NAME cfg) w = true ->
  sqlite_tables (TEST_DB_NAME cfg) w = Some ts ->
  has_table "mark_table" ts = false ->
  mark_database w =
  (Ok tt,
   world_after (<[TEST_DB_NAME cfg := SqliteDb (ts ++ ["mark_table"])]> (fs w))
     [EvConnect (TEST_DB_NAME cfg);
      EvExecute (TEST_DB_NAME cfg) "CREATE TABLE mark_table(kaka int);";
      EvCommit (TEST_DB_NAME cfg);
      EvClose (TEST_DB_NAME cfg)] w).
Proof.
  intros He Hm Hc Ht Hn. unfold_mark_database.
  destruct (sqlite3_engine_is He) as (-> & -> & ->).
  apply String.eqb_neq in Hm. rewrite Hm. clear Hm.
  generalize dependent (TEST_DB_NAME cfg). intros p Hc Ht.
  apply connectable_lookup in Hc as [Hu Hd].
  unfold sqlite_tables in Ht.
  unfold bind, try_finally, with_conn, sqlite3_connect, conn_execute,
    conn_close, emit, log, set_fs, world_after. cbn. rewrite Hu.
  destruct (fs w !! p) as [[ts'| |]|] eqn:E; cbn.
  - injection Ht as ->. rewrite E. cbn. rewrite Hn. cbn.
    rewrite <- !app_assoc. reflexivity.
  - discriminate.
  - discriminate.
  - injection Ht as <-. rewrite lookup_insert_eq. cbn.
    rewrite insert_insert_eq, <- !app_assoc. reflexivity.
Qed.


(** Where no connection can be had, the exception of [sqlite3.connect]
    comes out of the helpers, and nothing else is done. *)
Lemma sqlite_cannot_connect (w : World Ext) :
  get_db_engine cfg = "sqlite3" ->
  TEST_DB_NAME cfg <> ":memory:" ->
  connectable (TEST_DB_NAME cfg) w = false ->
  mark_database w =
    (Raise (OperationalError "unable to open database file"),
     log (EvConnect (TEST_DB_NAME cfg)) w) /\
  mark_exists w =
    (Raise (OperationalError "unable to open database file"),
     log (EvConnect (TEST_DB_NAME cfg)) w).
Proof.
  intros He Hm Hc. unfold_mark_database. unfold_mark_exists.
  destruct (sqlite3_engine_is He) as (-> & -> & ->).
  apply String.eqb_neq in Hm. rewrite Hm. clear Hm.
  generalize dependent (TEST_DB_NAME cfg). intros p Hc.
  unfold connectable in Hc.
  unfold bind, sqlite3_connect, emit, log, set_fs. cbn.
  destruct (bool_decide (p ∈ unopenable w)); [split; reflexivity|].
  destruct (fs w !! p) as [[ts| |]|]; try discriminate.
  split; reflexivity.
Qed.

Lemma run_cmd_then_assert (args : list string) (c : CmdResult -> bool)
    (w : World Ext) :
  args <> [] ->
  (r <- run_cmd args ;; py_assert (c r) "") w =
  (match client_run popen args w with
   | Some p => if c (CmdResult_of p) then Ok tt else Raise (AssertionError "")
   | None => Raise PopenError
   end,
   after_client popen args w).
Proof.
  intros Hne. unfold bind at 1. rewrite run_cmd_unfold.
  unfold client_run, after_client.
  destruct args as [|a args]; [now elim Hne|].
  destruct (popen (a :: args) (ext w)) as [[p e']|]; [|reflexivity].
  apply py_assert_result.
Qed.


Lemma mark_exists_postgres (w : World Ext) :
  get_db_engine cfg = "postgresql_psycopg2" ->
  mark_exists w =
  (match client_run popen
           ["psql"; TEST_DB_NAME cfg; "-c"; "SELECT 1 FROM mark_table"] w with
   | Some c => Ok (negb (Nat.eqb (length (stdoutdata c)) 0))
   | None => Raise PopenError
   end,
   after_client popen
     ["psql"; TEST_DB_NAME cfg; "-c"; "SELECT 1 FROM mark_table"] w).
Proof.
  intros He. unfold_mark_exists. rewrite (postgres_engine_is He).
  now apply (run_cmd_then _ (fun r => Ok (negb (Nat.eqb (length (std_out r)) 0)))).
Qed.

Lemma mark_exists_mysql (w : World Ext) :
  get_db_engine cfg = "mysql" ->
  mark_exists w =
  (match client_run popen
           (mysql_argv cfg [TEST_DB_NAME cfg; "-e"; "SELECT 1 FROM mark_table"])
           w with
   | Some c => Ok (returncode c =? 0)%Z
   | None => Raise PopenError
   end,
   after_client popen
     (mysql_argv cfg [TEST_DB_NAME cfg; "-e"; "SELECT 1 FROM mark_table"]) w).
Proof.
  intros He. unfold_mark_exists. destruct (mysql_engine_is He) as [-> ->].
  now apply (run_cmd_then _ (fun r => Ok (status_code r =? 0)%Z)).
Qed.

(** The sqlite branch of [mark_exists], by what is at the path. *)
Lemma mark_exists_sqlite_file (w : World Ext) :
  get_db_engine cfg = "sqlite3" ->
  TEST_DB_NAME cfg <> ":memory:" ->
  fst (mark_exists w) =
  if connectable (TEST_DB_NAME cfg) w then
    match fs w !! TEST_DB_NAME cfg with
    | None => Ok false
    | Some (SqliteDb ts) => Ok (has_table "mark_table" ts)
    | Some NotADb => Raise (DatabaseError "file is not a database")
    | Some Directory => Raise (OperationalError "unable to open database file")
    end
  else Raise (OperationalError "unable to open database file").
Proof.
  intros He Hm. unfold_mark_exists.
  destruct (sqlite3_engine_is He) as (-> & -> & ->).
  apply String.eqb_neq in Hm. rewrite Hm. clear Hm.
  generalize (TEST_DB_NAME cfg). intros p.
  unfold connectable, bind, try_finally, except_OperationalError, with_conn,
    sqlite3_connect, conn_execute, conn_close, emit, log, set_fs, ret. cbn.
  destruct (bool_decide (p ∈ unopenable w)); [reflexivity|]. cbn.
  destruct (fs w !! p) as [[ts| |]|] eqn:E; cbn.
  - rewrite E. cbn. destruct (has_table "mark_table" ts); reflexivity.
  - rewrite E. reflexivity.
  - reflexivity.
  - rewrite lookup_insert_eq. reflexivity.
Qed.

(** The same branch, by what the statement does on the connection. *)
Lemma mark_exists_sqlite_statement (w : World Ext) :
  get_db_engine cfg = "sqlite3" ->
  TEST_DB_NAME cfg <> ":memory:" ->
  connectable (TEST_DB_NAME cfg) w = true ->
  fst (mark_exists w) =
  match fst (conn_execute Ext (TEST_DB_NAME cfg) "SELECT 1 FROM mark_table"
               (snd (sqlite3_connect Ext (TEST_DB_NAME cfg) w))) with
  | Ok _ => Ok true
  | Raise (OperationalError _) => Ok false
  | Raise e => Raise e
  end.
Proof.
  intros He Hm Hc. rewrite (mark_exists_sqlite_file _ He Hm), Hc.
  apply connectable_lookup in Hc as [Hu Hd]. revert Hu Hd.
  generalize (TEST_DB_NAME cfg). intros p Hu Hd.
  unfold bind, sqlite3_connect, conn_execute, emit, log, set_fs. cbn.
  rewrite Hu.
  destruct (fs w !! p) as [[ts| |]|] eqn:E; cbn.
  - rewrite E. cbn. destruct (has_table "mark_table" ts); reflexivity.
  - rewrite E. reflexivity.
  - now elim Hd.
  - rewrite lookup_insert_eq. reflexivity.
Qed.

(** C6: [mark_exists] is [True] exactly when the mark is found, each
    backend by its own criterion: with postgres, when psql asked to
    [SELECT 1 FROM mark_table] writes something on standard output; with
    mysql, when the client ends with exit status 0; with a sqlite file, when
    sqlite3 gives a connection and the statement executes without
    [sqlite3.OperationalError], which is when the database has the table
    [mark_table].  Where [sqlite3.connect] raises, its [OperationalError]
    comes out of [mark_exists], which then gives no answer. *)
Theorem mark_exists_checks_mark_table (w : World Ext) :
  (get_db_engine cfg = "postgresql_psycopg2" ->
   let argv := ["psql"; TEST_DB_NAME cfg; "-c"; "SELECT 1 FROM mark_table"] in
   (forall c, client_run popen argv w = Some c ->
      fst (mark_exists w) = Ok (negb (Nat.eqb (length (stdoutdata c)) 0))) /\
   (fst (mark_exists w) = Ok true <->
    exists c, client_run popen argv w = Some c /\ stdoutdata c <> [])) /\
  (get_db_engine cfg = "mysql" ->
   let argv := mysql_argv cfg [TEST_DB_NAME cfg; "-e";
                               "SELECT 1 FROM mark_table"] in
   (forall c, client_run popen argv w = Some c ->
      fst (mark_exists w) = Ok (returncode c =? 0)%Z) /\
   (fst (mark_exists w) = Ok true <->
    exists c, client_run popen argv w = Some c /\ returncode c = 0%Z)) /\
  (get_db_engine cfg = "sqlite3" -> TEST_DB_NAME cfg <> ":memory:" ->
   (connectable (TEST_DB_NAME cfg) w = true ->
    fst (mark_exists w) =
      match fst (conn_execute Ext (TEST_DB_NAME cfg) "SELECT 1 FROM mark_table"
                   (snd (sqlite3_connect Ext (TEST_DB_NAME cfg) w))) with
      | Ok _ => Ok true
      | Raise (OperationalError _) => Ok false
      | Raise e => Raise e
      end) /\
   (connectable (TEST_DB_NAME cfg) w = false ->
    fst (mark_exists w) =
      Raise (OperationalError "unable to open database file")) /\
   (fst (mark_exists w) = Ok true <->
    connectable (TEST_DB_NAME cfg) w = true /\
    exists ts, fs w !! TEST_DB_NAME cfg = Some (SqliteDb ts) /\
               has_table "mark_table" ts = true)).
Proof.
  split; [|split].
  - intros He argv. rewrite (mark_exists_postgres _ He). cbn [fst].
    fold argv. split; [now intros c ->|].
    destruct (client_run popen argv w) as [c|]; split.
    + intros [= H]. exists c. split; [reflexivity|].
      intros E. now rewrite E in H.
    + intros (c' & [= <-] & H). f_equal.
      destruct (stdoutdata c); [now elim H | reflexivity].
    + discriminate.
    + now intros (c' & H & _).
  - intros He argv. rewrite (mark_exists_mysql _ He). cbn [fst].
    fold argv. split; [now intros c ->|]. apply exit_status_zero_iff.
  - intros He Hm. split; [now apply mark_exists_sqlite_statement|].
    rewrite (mark_exists_sqlite_file _ He Hm).
    destruct (connectable (TEST_DB_NAME cfg) w).
    + split; [discriminate|].
      destruct (fs w !! TEST_DB_NAME cfg) as [[ts| |]|]; split.
      * intros [= H]. eauto.
      * intros (_ & ts' & [= <-] & H). now rewrite H.
      * discriminate.
      * now intros (_ & ts' & H & _).
      * discriminate.
      * now intros (_ & ts' & H & _).
      * discriminate.
      * now intros (_ & ts' & H & _).
    + split; [reflexivity|]. split; [discriminate | now intros [H _]].
Qed.

(** C9: dropping a database that is not there is no error.  The postgres
    branch accepts an outcome whose standard error says [does not exist],
    the mysql branch one whose standard error says [database doesn't
    exist], whatever the exit status, provided [force_text] can decode what
    it is given (standard output first, for postgres); the sqlite branch
    does not unlink a path that does not exist.  So a second drop right
    after a first one that succeeded succeeds: for a sqlite file always
    (the first succeeds where the file can be unlinked), for the clients
    whenever the first run reports the drop and the second reports the
    missing database. *)
Theorem drop_database_missing_is_ok (name suffix : pyarg) (w : World Ext) :
  truthy name <> truthy suffix ->
  let n := dropped_name name suffix in
  let twice := (drop_database name suffix ;; drop_database name suffix) in
  (get_db_engine cfg = "postgresql_psycopg2" ->
   let argv := psql_drop_argv n in
   (forall c out err,
      client_run popen argv w = Some c ->
      force_text (stdoutdata c) = Some out ->
      force_text (stderrdata c) = Some err ->
      py_in "does not exist" err = true ->
      fst (drop_database name suffix w) = Ok tt) /\
   (forall c1 c2 out1 out2 err2,
      client_run popen argv w = Some c1 ->
      force_text (stdoutdata c1) = Some out1 ->
      py_in "DROP DATABASE" out1 = true ->
      client_run popen argv (after_client popen argv w) = Some c2 ->
      force_text (stdoutdata c2) = Some out2 ->
      force_text (stderrdata c2) = Some err2 ->
      py_in "does not exist" err2 = true ->
      fst (twice w) = Ok tt)) /\
  (get_db_engine cfg = "mysql" ->
   let argv := mysql_drop_argv cfg n in
   (forall c err,
      client_run popen argv w = Some c ->
      force_text (stderrdata c) = Some err ->
      py_in "database doesn't exist" err = true ->
      fst (drop_database name suffix w) = Ok tt) /\
   (forall c1 c2 err1 err2,
      client_run popen argv w = Some c1 ->
      force_text (stderrdata c1) = Some err1 ->
      returncode c1 = 0%Z ->
      client_run popen argv (after_client popen argv w) = Some c2 ->
      force_text (stderrdata c2) = Some err2 ->
      py_in "database doesn't exist" err2 = true ->
      fst (twice w) = Ok tt)) /\
  (get_db_engine cfg = "sqlite3" -> n <> ":memory:" ->
   (fs w !! n = None ->
    drop_database name suffix w = (Ok tt, log (EvPathExists n) w)) /\
   (unlinkable n w = true -> fst (drop_database name suffix w) = Ok tt) /\
   (fst (drop_database name suffix w) = Ok tt ->
    fs (snd (drop_database name suffix w)) !! n = None /\
    fst (twice w) = Ok tt /\
    fs (snd (twice w)) = fs (snd (drop_database name suffix w)) /\
    trace (snd (twice w)) =
      trace (snd (drop_database name suffix w)) ++ [EvPathExists n])).
Proof.
  intros Hx n twice. split; [|split].
  - intros He argv. split.
    + intros c out err Hc Hout Herr Hin.
      rewrite (drop_database_postgres _ _ _ Hx He). cbn [fst]. fold n argv.
      rewrite Hc. unfold postgres_drop_outcome. rewrite Hout, Herr, Hin.
      now destruct (py_in "DROP DATABASE" out).
    + intros c1 c2 out1 out2 err2 H1 Hout1 Hin1 H2 Hout2 Herr2 Hin2.
      unfold twice, bind.
      rewrite (drop_database_postgres _ _ w Hx He). fold n argv.
      rewrite H1. unfold postgres_drop_outcome at 1. rewrite Hout1, Hin1.
      rewrite (drop_database_postgres _ _ _ Hx He). cbn [fst]. fold n argv.
      rewrite H2. unfold postgres_drop_outcome. rewrite Hout2, Herr2, Hin2.
      now destruct (py_in "DROP DATABASE" out2).
  - intros He argv. split.
    + intros c err Hc Herr Hin.
      rewrite (drop_database_mysql _ _ _ Hx He). cbn [fst]. fold n argv.
      rewrite Hc. unfold mysql_drop_outcome. now rewrite Herr, Hin.
    + intros c1 c2 err1 err2 H1 Herr1 Hst H2 Herr2 Hin2.
      unfold twice, bind.
      rewrite (drop_database_mysql _ _ w Hx He). fold n argv.
      rewrite H1. unfold mysql_drop_outcome at 1.
      rewrite Herr1, Hst, orb_true_r.
      rewrite (drop_database_mysql _ _ _ Hx He). cbn [fst]. fold n argv.
      rewrite H2. unfold mysql_drop_outcome. now rewrite Herr2, Hin2.
  - intros He Hm. split; [|split].
    + intros Hnone. rewrite (drop_database_sqlite_file _ _ _ Hx He Hm).
      fold n. now rewrite Hnone.
    + intros Hu. rewrite (drop_database_sqlite_file _ _ _ Hx He Hm). fold n.
      destruct (fs w !! n); [|reflexivity]. cbn [fst]. now rewrite Hu.
    + unfold twice, bind.
      rewrite (drop_database_sqlite_file _ _ w Hx He Hm). fold n.
      destruct (fs w !! n) as [f|] eqn:E.
      * destruct (unlinkable n w); cbn [fst snd]; [|discriminate].
        intros _.
        rewrite (drop_database_sqlite_file _ _ _ Hx He Hm). fold n.
        cbn [fs set_fs log]. rewrite lookup_delete_eq.
        repeat split; apply lookup_delete_eq.
      * intros _. cbn [fst snd].
        rewrite (drop_database_sqlite_file _ _ _ Hx He Hm). fold n.
        cbn [fs log]. rewrite E. repeat split; exact E.
Qed.

End HelperProperties.

(** ** The transaction probe *)

Lemma fresh_pk_above (floor : nat) (rows : list Item) (r : Item) :
  r ∈ rows -> pk r < fresh_pk floor rows.
Proof.
  intros Hr. unfold fresh_pk.
  assert (H : Forall (fun k => k <= list_max (map pk rows)) (map pk rows))
    by now apply list_max_le.
  rewrite Forall_forall in H.
  specialize (H (pk r)).
  assert (pk r ∈ map pk rows) as Hin by now apply list_elem_of_fmap_2.
  specialize (H Hin). lia.
Qed.

Lemma filter_other_pk (rows : list Item) (n : nat) :
  (forall r, r ∈ rows -> pk r <> n) ->
  filter (fun r => pk r ≠ n) rows = rows.
Proof.
  induction rows as [|r rows IH]; intros H; [reflexivity|].
  rewrite filter_cons_True by (apply H; left).
  f_equal. apply IH. intros r' Hr'. apply H. now right.
Qed.

Lemma no_probe_named_filter (rows : list Item) :
  existsb probe_named rows = false <->
  filter (fun it => item_name it = "transaction_noop_test") rows = [].
Proof.
  induction rows as [|r rows IH]; [easy|].
  cbn [existsb]. rewrite filter_cons. unfold probe_named at 1.
  destruct (String.eqb_spec (item_name r) "transaction_noop_test") as [E|E].
  - rewrite decide_True by exact E. cbn. split; discriminate.
  - rewrite decide_False by exact E. cbn. exact IH.
Qed.

(** The legacy path, step by step. *)
Lemma noop_transactions_legacy (d : Django) :
  in_atomic_block d = None ->
  noop_transactions d =
  match filter (fun it => item_name it = "transaction_noop_test")
               (after_rollback d) with
  | [] => (Ok false, with_rows d (committed d) (pending_after_rollback d))
  | [it] =>
      (Ok true,
       with_rows d
         (filter (fun r => pk r ≠ pk it) (committed d))
         (filter (fun r => pk r ≠ pk it) (pending_after_rollback d)))
  | _ => (Raise MultipleObjectsReturned,
          with_rows d (committed d) (pending_after_rollback d))
  end.
Proof.
  intros H. unfold noop_transactions. rewrite H.
  unfold bind, with_commit_manually, Item_objects_create,
    transaction_rollback, try_except_DoesNotExist_else, Item_objects_get,
    Item_delete, ret, after_rollback, pending_after_rollback, with_rows,
    probe_row, items.
  cbn. rewrite H.
  destruct (rollback_is_noop d) eqn:N; cbn; rewrite ?N, ?H.
  - destruct (filter _ (committed d ++ _)) as [|it [|it' l]]; reflexivity.
  - destruct (filter _ (committed d ++ [])) as [|it [|it' l]]; reflexivity.
Qed.

Lemma probe_row_not_in_table (d : Django) (r : Item) :
  r ∈ items d -> pk r <> pk (probe_row d).
Proof.
  intros H. apply (fresh_pk_above (key_floor d)) in H. cbn. lia.
Qed.

Lemma after_rollback_named (d : Django) :
  existsb probe_named (items d) = false ->
  filter (fun it => item_name it = "transaction_noop_test") (after_rollback d) =
  if rollback_is_noop d then [probe_row d] else [].
Proof.
  intros H. apply no_probe_named_filter in H. unfold items in H.
  rewrite filter_app in H. apply app_eq_nil in H as [Hc Hp].
  unfold after_rollback, pending_after_rollback.
  destruct (rollback_is_noop d).
  - rewrite !filter_app, Hc, Hp. reflexivity.
  - now rewrite filter_app, Hc.
Qed.

Lemma delete_probe_row (d : Django) :
  filter (fun r => pk r ≠ pk (probe_row d)) (committed d) = committed d /\
  filter (fun r => pk r ≠ pk (probe_row d)) (pending d ++ [probe_row d]) =
  pending d.
Proof.
  split.
  - apply filter_other_pk. intros r Hr. apply probe_row_not_in_table.
    apply elem_of_app. now left.
  - rewrite filter_app, filter_other_pk.
    + rewrite filter_cons_False by (intros H; now apply H). apply app_nil_r.
    + intros r Hr. apply probe_row_not_in_table. apply elem_of_app. now right.
Qed.

(** The row is visible after the rollback exactly when the rollback did
    nothing. *)
Lemma probe_row_still_visible_noop (d : Django) :
  probe_row_still_visible d = rollback_is_noop d.
Proof.
  unfold probe_row_still_visible, bind, with_commit_manually,
    Item_objects_create, transaction_rollback, ret, items. cbn.
  destruct (rollback_is_noop d) eqn:N; cbn; rewrite ?N; cbn.
  - rewrite !existsb_app. cbn. rewrite Nat.eqb_refl.
    now rewrite orb_true_r, orb_true_r.
  - apply not_true_is_false. intros H.
    apply existsb_exists in H as (r & Hr & E).
    apply Nat.eqb_eq in E. rewrite app_nil_r in Hr.
    apply list_elem_of_In in Hr.
    assert (Hi : r ∈ committed d ++ pending d) by (apply elem_of_app; now left).
    apply (fresh_pk_above (key_floor d)) in Hi. lia.
Qed.

Lemma noop_transactions_clean_table (d : Django) :
  in_atomic_block d = None ->
  existsb probe_named (items d) = false ->
  noop_transactions d = (Ok (rollback_is_noop d), probed d).
Proof.
  intros H Hn. rewrite (noop_transactions_legacy _ H).
  rewrite (after_rollback_named _ Hn). unfold probed, pending_after_rollback.
  destruct (rollback_is_noop d).
  - destruct (delete_probe_row d) as [-> ->]. reflexivity.
  - reflexivity.
Qed.

Lemma noop_transactions_atomic (d : Django) (b : bool) :
  in_atomic_block d = Some b -> noop_transactions d = (Ok b, d).
Proof. intros H. unfold noop_transactions. now rewrite H. Qed.

(** No row named like the probe's is left when the legacy path returns. *)
Lemma noop_transactions_no_probe_left (d d' : Django) (b : bool) :
  in_atomic_block d = None ->
  noop_transactions d = (Ok b, d') ->
  existsb probe_named (items d') = false.
Proof.
  intros H. rewrite (noop_transactions_legacy _ H).
  destruct (filter _ (after_rollback d)) as [|it [|it' l]] eqn:F.
  - intros [= _ <-]. now apply no_probe_named_filter.
  - intros [= _ <-]. unfold items, with_rows. cbn [committed pending].
    rewrite <- filter_app. fold (after_rollback d).
    apply not_true_is_false. intros E.
    apply existsb_exists in E as (r & Hr & Hnamed).
    apply list_elem_of_In, list_elem_of_filter in Hr as [Hpk Hr].
    assert (r ∈ [it]) as Hin.
    { rewrite <- F. apply list_elem_of_filter. split; [|exact Hr].
      now apply String.eqb_eq. }
    apply list_elem_of_singleton in Hin. subst r. now apply Hpk.
  - discriminate.
Qed.

(** C1, amended: when the connection has the attribute [in_atomic_block],
    [noop_transactions] returns its value and does nothing to the database.
    Otherwise, if the table holds no row named ['transaction_noop_test']
    beforehand, it returns the boolean got by inserting a row inside a
    transaction, rolling back and checking whether the row is still
    visible: [True] exactly when it is, which is when rollback does
    nothing, and [False] when it is gone. *)
Theorem noop_transactions_probe (d : Django) :
  (forall b, in_atomic_block d = Some b -> noop_transactions d = (Ok b, d)) /\
  (in_atomic_block d = None ->
   existsb probe_named (items d) = false ->
   fst (noop_transactions d) = Ok (probe_row_still_visible d) /\
   probe_row_still_visible d = rollback_is_noop d).
Proof.
  split.
  - intros b. apply noop_transactions_atomic.
  - intros H Hn. rewrite (noop_transactions_clean_table _ H Hn).
    now rewrite probe_row_still_visible_noop.
Qed.

(** C10, amended: on the legacy path no row named
    ['transaction_noop_test'] is left in the table of [Item] when
    [noop_transactions] returns: such a row is deleted before [True] is
    returned and there is none when [False] is returned.  If the table held
    no row of that name before the call, the call returns and the committed
    rows are as they were; the rows that the connection had written and not
    committed are as they were when rollback does nothing, and are
    discarded by the rollback when it works.  So the table is unchanged
    when rollback does nothing or the connection had nothing
    uncommitted. *)
Theorem noop_transactions_leaves_no_probe_row (d : Django) :
  in_atomic_block d = None ->
  (forall b d', noop_transactions d = (Ok b, d') ->
     existsb probe_named (items d') = false) /\
  (existsb probe_named (items d) = false ->
   fst (noop_transactions d) = Ok (rollback_is_noop d) /\
   committed (snd (noop_transactions d)) = committed d /\
   pending (snd (noop_transactions d)) =
     (if rollback_is_noop d then pending d else []) /\
   (rollback_is_noop d = true \/ pending d = [] ->
    items (snd (noop_transactions d)) = items d)).
Proof.
  intros H. split.
  - intros b d'. now apply noop_transactions_no_probe_left.
  - intros Hn. rewrite (noop_transactions_clean_table _ H Hn).
    cbn [fst snd probed with_rows committed pending].
    split; [reflexivity|]. split; [reflexivity|]. split; [reflexivity|].
    unfold items. cbn [probed with_rows committed pending].
    intros [-> | ->].
    + reflexivity.
    + now destruct (rollback_is_noop d).
Qed.

(** ** The theorems at work *)

Lemma drop_database_name_xor_suffix_witness :
  (truthy (Some "other_db") = truthy (Some "gw0") /\
   drop_database script scripted_popen latin1_text sqlite_file_settings
     (Some "other_db") (Some "gw0") bare_world =
   (Raise (AssertionError "name and suffix cannot be used together"),
    bare_world)) /\
  (truthy None = truthy (Some "") /\
   drop_database script scripted_popen latin1_text sqlite_file_settings
     None (Some "") bare_world =
   (Raise (AssertionError "name and suffix cannot be used together"),
    bare_world)) /\
  (truthy (Some "gw0") = true /\
   drop_database_default script scripted_popen latin1_text sqlite_file_settings
     (Some "gw0") bare_world =
   (Raise (AssertionError "name and suffix cannot be used together"),
    bare_world)) /\
  (truthy (Some "other_db") <> truthy None /\
   fst (drop_database script scripted_popen latin1_text sqlite_file_settings
          (Some "other_db") None bare_world) <>
   Raise (AssertionError "name and suffix cannot be used together")).
Proof.
  pose proof (drop_database_name_xor_suffix script scripted_popen latin1_text
                sqlite_file_settings (Some "other_db") (Some "gw0") bare_world)
    as (H1 & _ & _).
  pose proof (drop_database_name_xor_suffix script scripted_popen latin1_text
                sqlite_file_settings None (Some "") bare_world) as (H2 & _ & _).
  pose proof (drop_database_name_xor_suffix script scripted_popen latin1_text
                sqlite_file_settings None (Some "gw0") bare_world)
    as (_ & H3 & _).
  pose proof (drop_database_name_xor_suffix script scripted_popen latin1_text
                sqlite_file_settings (Some "other_db") None bare_world)
    as (_ & _ & H4).
  split; [|split; [|split]].
  - split; [reflexivity | exact (H1 eq_refl)].
  - split; [reflexivity | exact (H2 eq_refl)].
  - split; [reflexivity | exact (H3 eq_refl)].
  - split; [discriminate | apply H4; discriminate].
Defined.

Lemma sqlite_in_memory_fails_fast_witness :
  get_db_engine sqlite_memory_settings = "sqlite3" /\
  TEST_DB_NAME sqlite_memory_settings = ":memory:" /\
  db_exists script scripted_popen sqlite_memory_settings (Some "gw0") bare_world =
    (Raise (AssertionError
              "sqlite in-memory database cannot be checked for existence!"),
     bare_world) /\
  mark_database script scripted_popen sqlite_memory_settings bare_world =
    (Raise (AssertionError "sqlite in-memory database cannot be marked!"),
     bare_world) /\
  mark_exists script scripted_popen sqlite_memory_settings bare_world =
    (Raise (AssertionError
              "sqlite in-memory database cannot be checked for mark!"),
     bare_world) /\
  drop_database_default script scripted_popen latin1_text
    sqlite_memory_settings None bare_world =
    (Raise (AssertionError "sqlite in-memory database cannot be dropped!"),
     bare_world) /\
  drop_database script scripted_popen latin1_text sqlite_memory_settings
    (Some ":memory:") None bare_world =
    (Raise (AssertionError "sqlite in-memory database cannot be dropped!"),
     bare_world).
Proof.
  pose proof (sqlite_in_memory_fails_fast script scripted_popen latin1_text
                sqlite_memory_settings (Some "gw0") bare_world eq_refl eq_refl)
    as (H1 & H2 & H3 & H4 & H5 & _).
  split; [reflexivity|]. split; [reflexivity|].
  split; [exact H1|]. split; [exact H2|]. split; [exact H3|].
  split; [exact H4 | exact H5].
Defined.

Lemma unsupported_engine_fails_fast_witness :
  supported_engine (get_db_engine oracle_settings) = false /\
  truthy (Some "other_db") <> truthy None /\
  py_in "oracle" "oracle cannot be tested properly!" = true /\
  db_exists script scripted_popen oracle_settings (Some "gw0") bare_world =
    (Raise (AssertionError "oracle cannot be tested properly!"), bare_world) /\
  mark_database script scripted_popen oracle_settings bare_world =
    (Raise (AssertionError "oracle cannot be tested properly!"), bare_world) /\
  mark_exists script scripted_popen oracle_settings bare_world =
    (Raise (AssertionError "oracle cannot be tested properly!"), bare_world) /\
  drop_database script scripted_popen latin1_text oracle_settings
    (Some "other_db") None bare_world =
    (Raise (AssertionError "oracle cannot be tested properly!"), bare_world).
Proof.
  pose proof (unsupported_engine_fails_fast script scripted_popen latin1_text
                oracle_settings (Some "other_db") None (Some "gw0") bare_world
                eq_refl)
    as (H1 & H2 & H3 & H4 & H5).
  assert (Hx : truthy (Some "other_db") <> truthy None) by discriminate.
  split; [reflexivity|]. split; [exact Hx|].
  split; [exact H1|]. split; [exact H2|]. split; [exact H3|].
  split; [exact H4|]. exact (H5 Hx).
Defined.

(** C2, as stated, fails: with the unsupported engine [oracle] and a suffix
    passed next to the default name, [drop_database] raises an
    [AssertionError] whose message does not name the engine. *)
Lemma unsupported_engine_drop_database_suffix :
  supported_engine (get_db_engine oracle_settings) = false /\
  get_db_engine oracle_settings = "oracle" /\
  drop_database_default script scripted_popen latin1_text oracle_settings
    (Some "gw0") bare_world =
    (Raise (AssertionError "name and suffix cannot be used together"),
     bare_world) /\
  py_in "oracle" "name and suffix cannot be used together" = false.
Proof. repeat split. Qed.

(** C7, as stated, fails: there are argument lists for which [run_cmd]
    returns no [CmdResult]; the empty one, for which Popen raises at once,
    and any one whose program cannot be started. *)
Lemma run_cmd_raises_without_process :
  run_cmd script scripted_popen [] bare_world = (Raise PopenError, bare_world) /\
  fst (run_cmd script scripted_popen ["psql"; "postgres"; "-c"; "SELECT 1"]
         (world0 [None] ∅)) = Raise PopenError.
Proof. split; reflexivity. Qed.

Lemma run_cmd_surfaces_outcome_witness :
  client_run scripted_popen ["psql"; "nowhere"; "-c"; "SELECT 1"]
    (world0 [Some (exits 2 "" "psql: FATAL")] ∅) =
    Some (exits 2 "" "psql: FATAL") /\
  fst (run_cmd script scripted_popen ["psql"; "nowhere"; "-c"; "SELECT 1"]
         (world0 [Some (exits 2 "" "psql: FATAL")] ∅)) =
    Ok {| status_code := 2; std_out := []; std_err := bytes_of "psql: FATAL" |} /\
  client_run scripted_popen ["psql"] bare_world = None /\
  fst (run_cmd script scripted_popen ["psql"] bare_world) = Raise PopenError.
Proof.
  pose proof (run_cmd_surfaces_outcome script scripted_popen
                ["psql"; "nowhere"; "-c"; "SELECT 1"]
                (world0 [Some (exits 2 "" "psql: FATAL")] ∅)) as (H1 & _ & _).
  pose proof (run_cmd_surfaces_outcome script scripted_popen ["psql"] bare_world)
    as (_ & H2 & _).
  split; [reflexivity|]. split; [exact (H1 _ eq_refl)|].
  split; [reflexivity|]. exact (H2 eq_refl).
Defined.

Lemma db_exists_checks_existence_witness :
  (get_db_engine postgres_settings = "postgresql_psycopg2" /\
   fst (db_exists script scripted_popen postgres_settings (Some "gw0")
          (world0 [Some (exits 0 "1 row" "")] ∅)) = Ok true) /\
  (get_db_engine mysql_settings = "mysql" /\
   fst (db_exists script scripted_popen mysql_settings None
          (world0 [Some (exits 1 "" "ERROR 1049: Unknown database")] ∅)) =
   Ok false) /\
  (get_db_engine sqlite_file_settings = "sqlite3" /\
   TEST_DB_NAME sqlite_file_settings <> ":memory:" /\
   fst (db_exists script scripted_popen sqlite_file_settings None
          (world0 [] {[ sqlite_path := SqliteDb [] ]})) = Ok true /\
   fst (db_exists script scripted_popen sqlite_file_settings None bare_world) =
   Ok false).
Proof.
  pose proof (db_exists_checks_existence script scripted_popen
                postgres_settings (Some "gw0")
                (world0 [Some (exits 0 "1 row" "")] ∅)) as (Hp & _ & _).
  pose proof (db_exists_checks_existence script scripted_popen
                mysql_settings None
                (world0 [Some (exits 1 "" "ERROR 1049: Unknown database")] ∅))
    as (_ & Hm & _).
  pose proof (db_exists_checks_existence script scripted_popen
                sqlite_file_settings None
                (world0 [] {[ sqlite_path := SqliteDb [] ]})) as (_ & _ & Hs).
  pose proof (db_exists_checks_existence script scripted_popen
                sqlite_file_settings None bare_world) as (_ & _ & Hs').
  assert (Hn : TEST_DB_NAME sqlite_file_settings <> ":memory:") by discriminate.
  split; [|split].
  - split; [reflexivity|].
    destruct (Hp eq_refl) as (H & _). exact (H _ eq_refl).
  - split; [reflexivity|].
    destruct (Hm eq_refl) as (H & _). exact (H _ eq_refl).
  - split; [reflexivity|]. split; [exact Hn|]. split.
    + destruct (Hs eq_refl Hn) as (H & _). exact H.
    + destruct (Hs' eq_refl Hn) as (H & _). exact H.
Defined.


Lemma mark_exists_checks_mark_table_witness :
  (get_db_engine postgres_settings = "postgresql_psycopg2" /\
   fst (mark_exists script scripted_popen postgres_settings
          (world0 [Some (exits 0 " ?column? " "")] ∅)) = Ok true /\
   fst (mark_exists script scripted_popen postgres_settings
          (world0 [Some (exits 1 "" "ERROR:  relation does not exist")] ∅)) =
   Ok false) /\
  (get_db_engine mysql_settings = "mysql" /\
   fst (mark_exists script scripted_popen mysql_settings
          (world0 [Some (exits 0 "" "")] ∅)) = Ok true) /\
  (get_db_engine sqlite_file_settings = "sqlite3" /\
   TEST_DB_NAME sqlite_file_settings <> ":memory:" /\
   connectable sqlite_path
     (world0 [] {[ sqlite_path := SqliteDb ["mark_table"] ]}) = true /\
   fst (mark_exists script scripted_popen sqlite_file_settings
          (world0 [] {[ sqlite_path := SqliteDb ["mark_table"] ]})) = Ok true /\
   connectable sqlite_path bare_world = true /\
   fst (mark_exists script scripted_popen sqlite_file_settings bare_world) =
   Ok false /\
   connectable sqlite_path (world_without_access [] ∅ sqlite_path) = false /\
   fst (mark_exists script scripted_popen sqlite_file_settings
          (world_without_access [] ∅ sqlite_path)) =
   Raise (OperationalError "unable to open database file")).
Proof.
  pose proof (mark_exists_checks_mark_table script scripted_popen
                postgres_settings (world0 [Some (exits 0 " ?column? " "")] ∅))
    as (Hp & _ & _).
  pose proof (mark_exists_checks_mark_table script scripted_popen
                postgres_settings
                (world0 [Some (exits 1 "" "ERROR:  relation does not exist")] ∅))
    as (Hp' & _ & _).
  pose proof (mark_exists_checks_mark_table script scripted_popen
                mysql_settings (world0 [Some (exits 0 "" "")] ∅))
    as (_ & Hm & _).
  pose proof (mark_exists_checks_mark_table script scripted_popen
                sqlite_file_settings
                (world0 [] {[ sqlite_path := SqliteDb ["mark_table"] ]}))
    as (_ & _ & Hs).
  pose proof (mark_exists_checks_mark_table script scripted_popen
                sqlite_file_settings bare_world) as (_ & _ & Hs').
  pose proof (mark_exists_checks_mark_table script scripted_popen
                sqlite_file_settings (world_without_access [] ∅ sqlite_path))
    as (_ & _ & Hl).
  assert (Hn : TEST_DB_NAME sqlite_file_settings <> ":memory:") by discriminate.
  split; [|split].
  - split; [reflexivity|]. split.
    + destruct (Hp eq_refl) as (H & _). exact (H _ eq_refl).
    + destruct (Hp' eq_refl) as (H & _). exact (H _ eq_refl).
  - split; [reflexivity|].
    destruct (Hm eq_refl) as (H & _). exact (H _ eq_refl).
  - split; [reflexivity|]. split; [exact Hn|].
    split; [reflexivity|]. split.
    { destruct (Hs eq_refl Hn) as (H & _). exact (H eq_refl). }
    split; [reflexivity|]. split.
    { destruct (Hs' eq_refl Hn) as (H & _). exact (H eq_refl). }
    split; [reflexivity|].
    destruct (Hl eq_refl Hn) as (_ & H & _). exact (H eq_refl).
Defined.

Lemma drop_database_missing_is_ok_witness :
  truthy (Some "db") <> truthy None /\
  (get_db_engine postgres_settings = "postgresql_psycopg2" /\
   fst (drop_database script scripted_popen ascii_text postgres_settings
          (Some "db") None
          (world0 [Some (exits 1 "" "ERROR:  database db does not exist")] ∅)) =
   Ok tt /\
   fst ((drop_database script scripted_popen ascii_text postgres_settings
           (Some "db") None ;;
         drop_database script scripted_popen ascii_text postgres_settings
           (Some "db") None)
          (world0 [Some (exits 0 "DROP DATABASE" "");
                   Some (exits 1 "" "ERROR:  database db does not exist")] ∅)) =
   Ok tt) /\
  (get_db_engine mysql_settings = "mysql" /\
   fst (drop_database script scripted_popen ascii_text mysql_settings
          (Some "db") None
          (world0
             [Some (exits 1 "" "Can't drop database 'db'; database doesn't exist")]
             ∅)) = Ok tt) /\
  (get_db_engine sqlite_file_settings = "sqlite3" /\
   sqlite_path <> ":memory:" /\
   drop_database script scripted_popen ascii_text sqlite_file_settings
     (Some sqlite_path) None bare_world =
   (Ok tt, log (EvPathExists sqlite_path) bare_world) /\
   unlinkable sqlite_path (world0 [] {[ sqlite_path := SqliteDb [] ]}) = true /\
   fst ((drop_database script scripted_popen ascii_text sqlite_file_settings
           (Some sqlite_path) None ;;
         drop_database script scripted_popen ascii_text sqlite_file_settings
           (Some sqlite_path) None)
          (world0 [] {[ sqlite_path := SqliteDb [] ]})) = Ok tt /\
   fs (snd (drop_database script scripted_popen ascii_text sqlite_file_settings
              (Some sqlite_path) None
              (world0 [] {[ sqlite_path := SqliteDb [] ]}))) !! sqlite_path =
   None).
Proof.
  assert (Hx : truthy (Some "db") <> truthy None) by discriminate.
  assert (Hy : truthy (Some sqlite_path) <> truthy None) by discriminate.
  assert (Hn : sqlite_path <> ":memory:") by discriminate.
  pose proof (drop_database_missing_is_ok script scripted_popen ascii_text
                postgres_settings (Some "db") None
                (world0 [Some (exits 1 "" "ERROR:  database db does not exist")] ∅)
                Hx) as (Hp & _ & _).
  pose proof (drop_database_missing_is_ok script scripted_popen ascii_text
                postgres_settings (Some "db") None
                (world0 [Some (exits 0 "DROP DATABASE" "");
                         Some (exits 1 "" "ERROR:  database db does not exist")] ∅)
                Hx) as (Hp2 & _ & _).
  pose proof (drop_database_missing_is_ok script scripted_popen ascii_text
                mysql_settings (Some "db") None
                (world0
                   [Some (exits 1 ""
                            "Can't drop database 'db'; database doesn't exist")]
                   ∅) Hx) as (_ & Hm & _).
  pose proof (drop_database_missing_is_ok script scripted_popen ascii_text
                sqlite_file_settings (Some sqlite_path) None bare_world Hy)
    as (_ & _ & Hs).
  pose proof (drop_database_missing_is_ok script scripted_popen ascii_text
                sqlite_file_settings (Some sqlite_path) None
                (world0 [] {[ sqlite_path := SqliteDb [] ]}) Hy)
    as (_ & _ & Hs2).
  split; [exact Hx|]. split; [|split].
  - split; [reflexivity|]. split.
    + destruct (Hp eq_refl) as (H & _).
      exact (H _ _ _ eq_refl eq_refl eq_refl eq_refl).
    + destruct (Hp2 eq_refl) as (_ & H).
      exact (H _ _ _ _ _ eq_refl eq_refl eq_refl eq_refl eq_refl eq_refl
               eq_refl).
  - split; [reflexivity|].
    destruct (Hm eq_refl) as (H & _). exact (H _ _ eq_refl eq_refl eq_refl).
  - split; [reflexivity|]. split; [exact Hn|].
    destruct (Hs eq_refl Hn) as (H1 & _ & _).
    destruct (Hs2 eq_refl Hn) as (_ & H2 & H3).
    split; [exact (H1 eq_refl)|]. split; [reflexivity|].
    destruct (H3 (H2 eq_refl)) as (H4 & H5 & _).
    split; [exact H5 | exact H4].
Defined.

(** C1, as stated, fails: on a connection that has [in_atomic_block] the
    probe answers with that attribute, [True] although a row inserted and
    rolled back would be gone, or [False] although it would still be there.
    On the legacy path a row of the same name that was in the table before
    makes the answer [True] although the inserted row is gone. *)
Lemma noop_transactions_differs_from_probe :
  (fst (noop_transactions (atomic_django true false [])) = Ok true /\
   probe_row_still_visible (atomic_django true false []) = false) /\
  (fst (noop_transactions (atomic_django false true [])) = Ok false /\
   probe_row_still_visible (atomic_django false true []) = true) /\
  (fst (noop_transactions
          (legacy_django false
             [{| pk := 4; item_name := "transaction_noop_test" |}])) = Ok true /\
   probe_row_still_visible
     (legacy_django false
        [{| pk := 4; item_name := "transaction_noop_test" |}]) = false).
Proof. repeat split. Qed.

Lemma noop_transactions_probe_witness :
  (in_atomic_block (atomic_django true false []) = Some true /\
   noop_transactions (atomic_django true false []) =
   (Ok true, atomic_django true false [])) /\
  (in_atomic_block
     (legacy_django true [{| pk := 1; item_name := "apple" |}]) = None /\
   existsb probe_named [{| pk := 1; item_name := "apple" |}] = false /\
   fst (noop_transactions
          (legacy_django true [{| pk := 1; item_name := "apple" |}])) = Ok true /\
   probe_row_still_visible
     (legacy_django true [{| pk := 1; item_name := "apple" |}]) = true) /\
  (in_atomic_block
     (legacy_django false [{| pk := 1; item_name := "apple" |}]) = None /\
   fst (noop_transactions
          (legacy_django false [{| pk := 1; item_name := "apple" |}])) = Ok false /\
   probe_row_still_visible
     (legacy_django false [{| pk := 1; item_name := "apple" |}]) = false).
Proof.
  pose proof (noop_transactions_probe (atomic_django true false []))
    as (Ha & _).
  pose proof (noop_transactions_probe
                (legacy_django true [{| pk := 1; item_name := "apple" |}]))
    as (_ & Ht).
  pose proof (noop_transactions_probe
                (legacy_django false [{| pk := 1; item_name := "apple" |}]))
    as (_ & Hf).
  split; [|split].
  - split; [reflexivity | exact (Ha true eq_refl)].
  - split; [reflexivity|]. split; [reflexivity|].
    destruct (Ht eq_refl eq_refl) as (H1 & H2). split; [exact H1 | exact H2].
  - split; [reflexivity|].
    destruct (Hf eq_refl eq_refl) as (H1 & H2). split; [exact H1 | exact H2].
Defined.

(** C10, as stated, fails: a row that was in the table before the call and
    is named like the probe's is deleted when rollback works, and [True] is
    returned; and a row that the connection had written and not committed
    is gone after the call when rollback works. *)
Lemma noop_transactions_deletes_homonym :
  (noop_transactions
     (legacy_django false [{| pk := 4; item_name := "transaction_noop_test" |}]) =
   (Ok true, legacy_django false []) /\
   items (snd (noop_transactions
                 (legacy_django false
                    [{| pk := 4; item_name := "transaction_noop_test" |}]))) <>
   items (legacy_django false
            [{| pk := 4; item_name := "transaction_noop_test" |}])) /\
  (fst (noop_transactions
          (legacy_django_pending false [] [{| pk := 1; item_name := "pear" |}] 0)) =
   Ok false /\
   items (snd (noop_transactions
                 (legacy_django_pending false []
                    [{| pk := 1; item_name := "pear" |}] 0))) <>
   items (legacy_django_pending false [] [{| pk := 1; item_name := "pear" |}] 0)).
Proof.
  split; (split; [reflexivity | discriminate]).
Qed.

Lemma noop_transactions_leaves_no_probe_row_witness :
  in_atomic_block
    (legacy_django true [{| pk := 1; item_name := "apple" |}]) = None /\
  noop_transactions
    (legacy_django true [{| pk := 1; item_name := "apple" |}]) =
  (Ok true, legacy_django true [{| pk := 1; item_name := "apple" |}]) /\
  existsb probe_named [{| pk := 1; item_name := "apple" |}] = false /\
  existsb probe_named
    (items (legacy_django true [{| pk := 1; item_name := "apple" |}])) = false /\
  items (snd (noop_transactions
                (legacy_django true [{| pk := 1; item_name := "apple" |}]))) =
  [{| pk := 1; item_name := "apple" |}] /\
  in_atomic_block
    (legacy_django_pending false [{| pk := 1; item_name := "apple" |}]
       [{| pk := 7; item_name := "pear" |}] 9) = None /\
  committed (snd (noop_transactions
                    (legacy_django_pending false
                       [{| pk := 1; item_name := "apple" |}]
                       [{| pk := 7; item_name := "pear" |}] 9))) =
  [{| pk := 1; item_name := "apple" |}] /\
  pending (snd (noop_transactions
                  (legacy_django_pending false
                     [{| pk := 1; item_name := "apple" |}]
                     [{| pk := 7; item_name := "pear" |}] 9))) = [].
Proof.
  pose proof (noop_transactions_leaves_no_probe_row
                (legacy_django true [{| pk := 1; item_name := "apple" |}])
                eq_refl) as (H1 & H2).
  pose proof (noop_transactions_leaves_no_probe_row
                (legacy_django_pending false
                   [{| pk := 1; item_name := "apple" |}]
                   [{| pk := 7; item_name := "pear" |}] 9)
                eq_refl) as (_ & H3).
  split; [reflexivity|]. split; [reflexivity|]. split; [reflexivity|].
  split; [exact (H1 true _ eq_refl)|].
  destruct (H2 eq_refl) as (_ & _ & _ & H).
  split; [exact (H (or_introl eq_refl))|].
  destruct (H3 eq_refl) as (_ & Hc & Hp & _).
  split; [reflexivity|]. split; [exact Hc | exact Hp].
Defined.

(** * More of the module *)

(** ** [get_db_engine] *)

Lemma split_not_nil (sep : ascii) (s : string) : split sep s <> [].
Proof.
  destruct s as [|c s]; cbn; [discriminate|].
  destruct (Ascii.eqb c sep); [discriminate|].
  destruct (split sep s); discriminate.
Qed.

Lemma last_cons_nonempty {A} (x : A) (l : list A) (d : A) :
  l <> [] -> List.last (x :: l) d = List.last l d.
Proof. destruct l; [now intros H; elim H | reflexivity]. Qed.

Lemma last_app_nonempty {A} (l1 l2 : list A) (d : A) :
  l2 <> [] -> List.last (l1 ++ l2) d = List.last l2 d.
Proof.
  intros H. induction l1 as [|x l1 IH]; [reflexivity|].
  cbn [app]. rewrite last_cons_nonempty; [exact IH|].
  destruct l1; [exact H | discriminate].
Qed.

Lemma py_in_char (c : ascii) (s : string) :
  py_in (String c "") s = has_char c s.
Proof.
  induction s as [|a s IH]; [reflexivity|].
  cbn [py_in has_char String.prefix]. rewrite IH.
  destruct (ascii_dec c a) as [->|N].
  - assert (Ascii.eqb a a = true) as -> by apply Ascii.eqb_refl.
    now destruct s.
  - assert (Ascii.eqb a c = false) as -> by (apply Ascii.eqb_neq; congruence).
    reflexivity.
Qed.

Lemma split_no_sep (sep : ascii) (s : string) :
  has_char sep s = false -> split sep s = [s].
Proof.
  induction s as [|c s IH]; [reflexivity|].
  cbn. intros H. apply orb_false_elim in H as [Hc Hs].
  rewrite Hc, (IH Hs). reflexivity.
Qed.

Lemma split_app_sep (sep : ascii) (p e : string) :
  split sep (p +:+ String sep e) = split sep p ++ split sep e.
Proof.
  induction p as [|c p IH].
  - change (split sep (String sep e) = "" :: split sep e).
    cbn [split]. now rewrite Ascii.eqb_refl.
  - change (split sep (String c (p +:+ String sep e)) =
            split sep (String c p) ++ split sep e).
    cbn [split].
    destruct (Ascii.eqb c sep); rewrite IH; [reflexivity|].
    destruct (split sep p) as [|h t] eqn:E; [now apply split_not_nil in E|].
    reflexivity.
Qed.

Lemma split_pieces_no_sep (sep : ascii) (s : string) :
  Forall (fun piece => has_char sep piece = false) (split sep s).
Proof.
  induction s as [|c s IH]; cbn.
  - now constructor.
  - destruct (Ascii.eqb c sep) eqn:E; [now constructor|].
    destruct (split sep s) as [|h t]; [now apply Forall_nil in IH; constructor; cbn; rewrite ?E|].
    inversion IH as [|? ? Hh Ht]; subst. constructor; [|exact Ht].
    cbn. now rewrite E, Hh.
Qed.

Lemma last_split_no_sep (sep : ascii) (s : string) :
  has_char sep (List.last (split sep s) "") = false.
Proof.
  pose proof (split_pieces_no_sep sep s) as H.
  induction H as [|x l Hx Hl IH]; [reflexivity|].
  destruct l; [exact Hx | exact IH].
Qed.

(** A string is what comes before its last piece, then the last piece; what
    comes before is empty when there is one piece and ends with the
    separator otherwise. *)
Lemma split_last_piece (sep : ascii) (s : string) :
  exists p,
    s = p +:+ List.last (split sep s) "" /\
    ((tl (split sep s) = [] /\ p = "") \/
     (tl (split sep s) <> [] /\ exists q, p = q +:+ String sep "")).
Proof.
  induction s as [|c s (p & Hs & IH)].
  - exists "". split; [reflexivity | left; split; reflexivity].
  - cbn [split]. destruct (Ascii.eqb_spec c sep) as [->|Hc].
    + exists (String sep p). split.
      * rewrite last_cons_nonempty by apply split_not_nil.
        change (String sep s = String sep (p +:+ List.last (split sep s) "")).
        f_equal. exact Hs.
      * right. split; [apply split_not_nil|].
        destruct IH as [[_ ->]|[_ (q & ->)]].
        -- now exists "".
        -- now exists (String sep q).
    + destruct (split sep s) as [|h t] eqn:E; [now apply split_not_nil in E|].
      destruct IH as [[Ht ->]|[Ht (q & ->)]]; cbn [tl] in Ht.
      * subst t. exists "". split; [|left; split; reflexivity].
        change (s = h) in Hs. subst s. reflexivity.
      * exists (String c (q +:+ String sep "")). split.
        -- rewrite last_cons_nonempty by exact Ht.
           rewrite last_cons_nonempty in Hs by exact Ht.
           change (String c s =
                   String c ((q +:+ String sep "") +:+ List.last t "")).
           f_equal. exact Hs.
        -- right. split; [exact Ht | now exists (String c q)].
Qed.

Lemma append_assoc (a b c : string) : (a +:+ b) +:+ c = a +:+ (b +:+ c).
Proof.
  induction a as [|x a IH]; [reflexivity|].
  change (String x ((a +:+ b) +:+ c) = String x (a +:+ (b +:+ c))).
  now rewrite IH.
Qed.

(** X1: the engine is the part of [ENGINE] after its last dot.  It holds no
    dot, and [ENGINE] is either the engine alone or something that ends with
    a dot, followed by the engine. *)
Theorem get_db_engine_is_last_component (cfg : Settings) :
  py_in "." (get_db_engine cfg) = false /\
  (ENGINE cfg = get_db_engine cfg \/
   exists q, ENGINE cfg = q +:+ "." +:+ get_db_engine cfg).
Proof.
  unfold get_db_engine. split.
  - rewrite py_in_char. apply last_split_no_sep.
  - destruct (split_last_piece "." (ENGINE cfg)) as (p & Hs & [[_ ->]|[_ (q & ->)]]).
    + left. exact Hs.
    + right. exists q. rewrite Hs at 1. apply append_assoc.
Qed.

(** X2: whatever package the backend lives in, the engine is the name after
    the last dot: for a name [e] without a dot, both [e] alone and
    [q + '.' + e] give the engine [e]. *)
Theorem get_db_engine_of_dotted_path (cfg : Settings) (q e : string) :
  py_in "." e = false ->
  (ENGINE cfg = e \/ ENGINE cfg = q +:+ "." +:+ e) ->
  get_db_engine cfg = e.
Proof.
  intros He H. rewrite py_in_char in He. unfold get_db_engine.
  destruct H as [->| ->].
  - now rewrite split_no_sep.
  - change (q +:+ "." +:+ e) with (q +:+ String "." e).
    rewrite split_app_sep, last_app_nonempty by apply split_not_nil.
    now rewrite split_no_sep.
Qed.

Lemma get_db_engine_of_dotted_path_witness :
  py_in "." "postgis" = false /\
  ENGINE (settings_named "django.contrib.gis.db.backends.postgis" "geo" None) =
    "django.contrib.gis.db.backends" +:+ "." +:+ "postgis" /\
  get_db_engine
    (settings_named "django.contrib.gis.db.backends.postgis" "geo" None) =
    "postgis" /\
  get_db_engine (settings_named "sqlite3" "db" None) = "sqlite3".
Proof.
  split; [reflexivity|]. split; [reflexivity|]. split.
  - apply (get_db_engine_of_dotted_path
             (settings_named "django.contrib.gis.db.backends.postgis" "geo" None)
             "django.contrib.gis.db.backends" "postgis" eq_refl).
    right. reflexivity.
  - apply (get_db_engine_of_dotted_path (settings_named "sqlite3" "db" None)
             "" "sqlite3" eq_refl).
    left. reflexivity.
Defined.

(** ** The module-level names *)

Lemma append_cancel_r (a b c : string) : a +:+ c = b +:+ c -> a = b.
Proof.
  revert b. induction a as [|x a IH]; intros [|y b] H.
  - reflexivity.
  - apply (f_equal String.length) in H.
    rewrite !length_append in H. cbn in H. lia.
  - apply (f_equal String.length) in H.
    rewrite !length_append in H. cbn in H. lia.
  - change (String x (a +:+ c) = String y (b +:+ c)) in H.
    injection H as -> H. f_equal. now apply IH.
Qed.

Lemma TEST_DB_NAME_0_memory (cfg : Settings) :
  TEST_DB_NAME_0 cfg = ":memory:" <-> TEST_NAME cfg = Some ":memory:".
Proof.
  unfold TEST_DB_NAME_0. destruct (TEST_NAME cfg) as [t|]; cbn.
  - destruct (String.eqb_spec t "") as [->|Ht]; cbn.
    + split; discriminate.
    + split; [now intros -> | now intros [= ->]].
  - split; discriminate.
Qed.

(** X3: the module takes the test database for an in-memory one exactly
    when the settings name it [':memory:'] under [TEST]; then [DB_NAME] is
    the path that must never be used.  In every other case, also when only
    [NAME] is [':memory:'], both names get the ending [_inner], so
    [TEST_DB_NAME] is not [':memory:']. *)
Theorem module_names_in_memory_switch (cfg : Settings) :
  (TEST_DB_NAME cfg = ":memory:" <-> TEST_NAME cfg = Some ":memory:") /\
  (TEST_NAME cfg = Some ":memory:" ->
   DB_NAME cfg = "/invalid_should_never_be_accessed") /\
  (TEST_NAME cfg <> Some ":memory:" ->
   DB_NAME cfg = NAME cfg +:+ "_inner" /\
   exists base, TEST_DB_NAME cfg = base +:+ "_inner" /\
                (truthy (TEST_NAME cfg) = true -> TEST_NAME cfg = Some base) /\
                (truthy (TEST_NAME cfg) = false -> base = "test_" +:+ NAME cfg)).
Proof.
  split; [apply TEST_DB_NAME_memory|]. split.
  - intros H. apply TEST_DB_NAME_0_memory in H.
    unfold DB_NAME. now rewrite H.
  - intros H. assert (H0 : TEST_DB_NAME_0 cfg <> ":memory:")
      by (intros E; now apply TEST_DB_NAME_0_memory in E).
    apply String.eqb_neq in H0. unfold DB_NAME, TEST_DB_NAME. rewrite H0.
    split; [reflexivity|]. exists (TEST_DB_NAME_0 cfg).
    split; [reflexivity|]. unfold TEST_DB_NAME_0. split; intros Ht; rewrite Ht.
    + destruct (TEST_NAME cfg); [reflexivity | discriminate].
    + reflexivity.
Qed.

Lemma module_names_in_memory_switch_witness :
  (TEST_NAME (settings_named "django.db.backends.sqlite3" "db" (Some ":memory:")) =
     Some ":memory:" /\
   DB_NAME (settings_named "django.db.backends.sqlite3" "db" (Some ":memory:")) =
     "/invalid_should_never_be_accessed") /\
  (TEST_NAME (settings_named "django.db.backends.sqlite3" ":memory:" None) <>
     Some ":memory:" /\
   DB_NAME (settings_named "django.db.backends.sqlite3" ":memory:" None) =
     ":memory:_inner" /\
   exists base,
     TEST_DB_NAME (settings_named "django.db.backends.sqlite3" ":memory:" None) =
       base +:+ "_inner").
Proof.
  pose proof (module_names_in_memory_switch
                (settings_named "django.db.backends.sqlite3" "db"
                   (Some ":memory:"))) as (_ & H1 & _).
  pose proof (module_names_in_memory_switch
                (settings_named "django.db.backends.sqlite3" ":memory:" None))
    as (_ & _ & H2).
  assert (Hn : TEST_NAME (settings_named "django.db.backends.sqlite3"
                            ":memory:" None) <> Some ":memory:")
    by discriminate.
  split.
  - split; [reflexivity | exact (H1 eq_refl)].
  - split; [exact Hn|]. destruct (H2 Hn) as (Hd & base & Hb & _).
    split; [exact Hd|]. exists base. exact Hb.
Defined.

(** X4: the inner test database has the name of the inner database only
    when the settings give the test database the database's own name; with
    no name under [TEST] the two always differ. *)
Theorem module_names_coincide (cfg : Settings) :
  TEST_DB_NAME cfg = DB_NAME cfg <->
  TEST_NAME cfg = Some (NAME cfg) /\ NAME cfg <> "" /\ NAME cfg <> ":memory:".
Proof.
  unfold TEST_DB_NAME, DB_NAME.
  destruct (String.eqb_spec (TEST_DB_NAME_0 cfg) ":memory:") as [Hm|Hm].
  - split.
    + rewrite Hm. discriminate.
    + intros (Ht & Hn & Hx). apply TEST_DB_NAME_0_memory in Hm.
      rewrite Hm in Ht. injection Ht as Ht. now elim Hx.
  - split.
    + intros H. apply append_cancel_r in H.
      unfold TEST_DB_NAME_0 in H, Hm.
      destruct (truthy (TEST_NAME cfg)) eqn:Ht.
      * destruct (TEST_NAME cfg) as [t|]; [|discriminate].
        cbn in H, Hm. subst t. apply truthy_Some in Ht. auto.
      * apply (f_equal String.length) in H. rewrite length_append in H.
        cbn in H. lia.
    + intros (Ht & Hn & Hx). f_equal. unfold TEST_DB_NAME_0. rewrite Ht.
      apply truthy_Some in Hn. now rewrite Hn.
Qed.

Lemma module_names_coincide_witness :
  (TEST_DB_NAME (settings_named "django.db.backends.mysql" "shop" (Some "shop")) =
   DB_NAME (settings_named "django.db.backends.mysql" "shop" (Some "shop"))) /\
  (TEST_DB_NAME (settings_named "django.db.backends.mysql" "shop" None) <>
   DB_NAME (settings_named "django.db.backends.mysql" "shop" None)).
Proof.
  split.
  - apply (proj2 (module_names_coincide
                    (settings_named "django.db.backends.mysql" "shop"
                       (Some "shop")))).
    split; [reflexivity|]. split; discriminate.
  - intros H.
    apply (proj1 (module_names_coincide
                    (settings_named "django.db.backends.mysql" "shop" None)))
      in H.
    destruct H as (H & _). discriminate.
Defined.

(** ** More on the helpers *)

Section MoreHelperProperties.

Variable Ext : Type.
Variable popen : list string -> Ext -> option (completed * Ext).
Variable force_text : list byte -> option string.
Variable cfg : Settings.

Local Abbreviation drop_database := (drop_database Ext popen force_text cfg).
Local Abbreviation drop_database_default :=
  (drop_database_default Ext popen force_text cfg).
Local Abbreviation db_exists := (db_exists Ext popen cfg).
Local Abbreviation mark_database := (mark_database Ext popen cfg).
Local Abbreviation mark_exists := (mark_exists Ext popen cfg).
Local Abbreviation run_cmd := (run_cmd Ext popen).
Local Abbreviation run_mysql := (run_mysql Ext popen cfg).
Local Abbreviation skip_if_sqlite_in_memory :=
  (skip_if_sqlite_in_memory Ext cfg).

(** X5: [run_mysql] always starts one process, the [mysql] client, also when
    it is given no argument; the caller's arguments come last, after
    [-u USER] when the settings have a user that is not empty and directly
    after [mysql] otherwise.  The file system is left alone, and the result
    is the outcome of the client or the exception of Popen. *)
Theorem run_mysql_starts_mysql (args : list string) (w : World Ext) :
  exists argv,
    trace (snd (run_mysql args w)) = trace w ++ [EvPopen argv] /\
    fs (snd (run_mysql args w)) = fs w /\
    (truthy (USER cfg) = true ->
     exists user, USER cfg = Some user /\ argv = ["mysql"; "-u"; user] ++ args) /\
    (truthy (USER cfg) = false -> argv = "mysql" :: args) /\
    fst (run_mysql args w) =
    match popen argv (ext w) with
    | Some (c, _) => Ok (CmdResult_of c)
    | None => Raise PopenError
    end.
Proof.
  exists (mysql_argv cfg args).
  change (run_mysql args w) with (run_cmd (mysql_argv cfg args) w).
  rewrite run_cmd_unfold. unfold mysql_argv at 1 2 3.
  split; [|split; [|split; [|split]]].
  - destruct (popen _ (ext w)) as [[c e']|]; reflexivity.
  - destruct (popen _ (ext w)) as [[c e']|]; reflexivity.
  - intros Hu. unfold mysql_argv. rewrite Hu.
    destruct (USER cfg) as [user|]; [|discriminate]. now exists user.
  - intros Hu. unfold mysql_argv. now rewrite Hu.
  - fold (mysql_argv cfg args).
    destruct (popen _ (ext w)) as [[c e']|]; reflexivity.
Qed.

(** X6: [skip_if_sqlite_in_memory] skips exactly when [ENGINE] is, in full,
    ['django.db.backends.sqlite3'] and [NAME] is [':memory:']; in every other
    case it returns.  It never touches the world, and whenever it skips the
    helpers take the sqlite3 branch. *)
Theorem skip_if_sqlite_in_memory_when (w : World Ext) :
  (ENGINE cfg = "django.db.backends.sqlite3" /\ NAME cfg = ":memory:" ->
   exists msg, skip_if_sqlite_in_memory w = (Raise (Skipped msg), w)) /\
  (~ (ENGINE cfg = "django.db.backends.sqlite3" /\ NAME cfg = ":memory:") ->
   skip_if_sqlite_in_memory w = (Ok tt, w)) /\
  (forall e, fst (skip_if_sqlite_in_memory w) = Raise e ->
     get_db_engine cfg = "sqlite3" /\ NAME cfg = ":memory:").
Proof.
  unfold_skip.
  destruct (String.eqb_spec (ENGINE cfg) "django.db.backends.sqlite3") as [He|He];
    destruct (String.eqb_spec (NAME cfg) ":memory:") as [Hn|Hn]; cbn;
    (split; [|split]).
  all: try (intros [? ?]; congruence).
  all: try (intros H; elim H; now split).
  all: try (intros e; discriminate).
  all: try reflexivity.
  - intros _. eexists. reflexivity.
  - intros e _. split; [|exact Hn]. unfold get_db_engine. now rewrite He.
Qed.

Lemma full_sqlite3_engine :
  ENGINE cfg = "django.db.backends.sqlite3" -> get_db_engine cfg = "sqlite3".
Proof. intros H. unfold get_db_engine. now rewrite H. Qed.

(** X7: the skip looks at [NAME], the helpers' in-memory guards at
    [TEST_DB_NAME], and the two can disagree.  With the test database named
    [':memory:'] under [TEST] and another [NAME], nothing is skipped and
    [db_exists], [mark_database] and [mark_exists] raise their in-memory
    [AssertionError].  With [NAME] [':memory:'] and no such name under
    [TEST], the skip is taken although [TEST_DB_NAME] is a file name, whose
    existence [db_exists] would report. *)
Theorem skip_guard_and_in_memory_guards (db_suffix : pyarg) (w : World Ext) :
  ENGINE cfg = "django.db.backends.sqlite3" ->
  (TEST_NAME cfg = Some ":memory:" -> NAME cfg <> ":memory:" ->
   skip_if_sqlite_in_memory w = (Ok tt, w) /\
   db_exists db_suffix w =
     (Raise (AssertionError
               "sqlite in-memory database cannot be checked for existence!"), w) /\
   mark_database w =
     (Raise (AssertionError "sqlite in-memory database cannot be marked!"), w) /\
   mark_exists w =
     (Raise (AssertionError
               "sqlite in-memory database cannot be checked for mark!"), w)) /\
  (NAME cfg = ":memory:" -> TEST_NAME cfg <> Some ":memory:" ->
   (exists msg, skip_if_sqlite_in_memory w = (Raise (Skipped msg), w)) /\
   TEST_DB_NAME cfg <> ":memory:" /\
   fst (db_exists db_suffix w) =
     Ok (bool_decide (is_Some (fs w !! suffixed_name cfg db_suffix)))).
Proof.
  intros He. pose proof (full_sqlite3_engine He) as Hg.
  destruct (sqlite3_engine_is _ Hg) as (E1 & E2 & E3). split.
  - intros Ht Hn. apply TEST_DB_NAME_memory in Ht. split; [|split; [|split]].
    + unfold_skip. rewrite He. apply String.eqb_neq in Hn. now rewrite Hn.
    + unfold_db_exists. now rewrite E1, E2, E3, Ht.
    + unfold_mark_database. now rewrite E1, E2, E3, Ht.
    + unfold_mark_exists. now rewrite E1, E2, E3, Ht.
  - intros Hn Ht.
    assert (Hm : TEST_DB_NAME cfg <> ":memory:")
      by (intros E; now apply TEST_DB_NAME_memory in E).
    split; [|split; [exact Hm|]].
    + unfold_skip. rewrite He, Hn. eexists. reflexivity.
    + now rewrite (db_exists_sqlite_file _ _ _ _ _ Hg Hm).
Qed.

(** *** The sqlite file through its life *)


Lemma connectable_database (p : string) (w : World Ext) (ts : list string) :
  fs w !! p = Some (SqliteDb ts) ->
  connectable p w = negb (bool_decide (p ∈ unopenable w)).
Proof. intros H. unfold connectable. rewrite H. apply andb_true_r. Qed.

Lemma connectable_missing (p : string) (w : World Ext) :
  fs w !! p = None ->
  connectable p w = negb (bool_decide (p ∈ unopenable w)).
Proof. intros H. unfold connectable. rewrite H. apply andb_true_r. Qed.



(** X10: once sqlite3 has given a connection, it is closed whatever
    happens.  On a sqlite file that can be opened or created,
    [mark_database] and [mark_exists] each connect once, execute their one
    statement, commit when it succeeds and roll back when it raises, and
    close the connection in both cases, also when the exception goes on to
    the caller.  Where [sqlite3.connect] raises, its exception comes out at
    once: nothing is executed and there is nothing to close.  No client is
    started in either case. *)
Theorem sqlite_connection_always_closed (w : World Ext) :
  get_db_engine cfg = "sqlite3" ->
  TEST_DB_NAME cfg <> ":memory:" ->
  (connectable (TEST_DB_NAME cfg) w = true ->
   (exists e,
      trace (snd (mark_database w)) =
        trace w ++ [EvConnect (TEST_DB_NAME cfg);
                    EvExecute (TEST_DB_NAME cfg)
                      "CREATE TABLE mark_table(kaka int);";
                    e; EvClose (TEST_DB_NAME cfg)] /\
      (fst (mark_database w) = Ok tt /\ e = EvCommit (TEST_DB_NAME cfg) \/
       (exists x, fst (mark_database w) = Raise x) /\
       e = EvRollback (TEST_DB_NAME cfg))) /\
   (exists e,
      trace (snd (mark_exists w)) =
        trace w ++ [EvConnect (TEST_DB_NAME cfg);
                    EvExecute (TEST_DB_NAME cfg) "SELECT 1 FROM mark_table";
                    e; EvClose (TEST_DB_NAME cfg)] /\
      (fst (mark_exists w) = Ok true /\ e = EvCommit (TEST_DB_NAME cfg) \/
       fst (mark_exists w) <> Ok true /\ e = EvRollback (TEST_DB_NAME cfg)))) /\
  (connectable (TEST_DB_NAME cfg) w = false ->
   mark_database w =
     (Raise (OperationalError "unable to open database file"),
      log (EvConnect (TEST_DB_NAME cfg)) w) /\
   mark_exists w =
     (Raise (OperationalError "unable to open database file"),
      log (EvConnect (TEST_DB_NAME cfg)) w)) /\
  ext (snd (mark_database w)) = ext w /\
  ext (snd (mark_exists w)) = ext w.
Proof.
  intros He Hm. split; [|split].
  2: now apply sqlite_cannot_connect.
  - intros Hc. apply connectable_lookup in Hc as [Hu Hd]. revert Hu Hd.
    destruct (sqlite3_engine_is _ He) as (E1 & E2 & E3).
    apply String.eqb_neq in Hm.
    unfold_mark_database. unfold_mark_exists. rewrite E1, E2, E3, Hm.
    generalize (TEST_DB_NAME cfg). intros p Hu Hd.
    unfold bind, try_finally, except_OperationalError, with_conn,
      sqlite3_connect, conn_execute, conn_close, emit, log, set_fs, ret.
    cbn. rewrite Hu.
    destruct (fs w !! p) as [[ts| |]|] eqn:E; cbn;
      rewrite ?E, ?lookup_insert_eq; cbn.
    + destruct (has_table "mark_table" ts); cbn; rewrite <- ?app_assoc; cbn;
        (split; eexists; (split; [reflexivity|]));
        solve [left; split; reflexivity
              |right; split; [eexists; reflexivity | reflexivity]
              |right; split; [discriminate | reflexivity]].
    + rewrite <- ?app_assoc; cbn.
      split; eexists; (split; [reflexivity|]);
        solve [right; split; [eexists; reflexivity | reflexivity]
              |right; split; [discriminate | reflexivity]].
    + now elim Hd.
    + rewrite <- ?app_assoc; cbn.
      split; eexists; (split; [reflexivity|]);
        solve [left; split; reflexivity
              |right; split; [discriminate | reflexivity]].
  - destruct (sqlite3_engine_is _ He) as (E1 & E2 & E3).
    apply String.eqb_neq in Hm.
    unfold_mark_database. unfold_mark_exists. rewrite E1, E2, E3, Hm.
    generalize (TEST_DB_NAME cfg). intros p.
    unfold bind, try_finally, except_OperationalError, with_conn,
      sqlite3_connect, conn_execute, conn_close, emit, log, set_fs, ret.
    cbn. destruct (bool_decide (p ∈ unopenable w)); [split; reflexivity|].
    destruct (fs w !! p) as [[ts| |]|] eqn:E; cbn;
      rewrite ?E, ?lookup_insert_eq; cbn;
      try destruct (has_table "mark_table" ts); split; reflexivity.
Qed.

Lemma drop_database_default_sqlite_file (w : World Ext) :
  get_db_engine cfg = "sqlite3" ->
  TEST_DB_NAME cfg <> ":memory:" ->
  fs w !! TEST_DB_NAME cfg = None \/ unlinkable (TEST_DB_NAME cfg) w = true ->
  fst (drop_database_default None w) = Ok tt /\
  fs (snd (drop_database_default None w)) = delete (TEST_DB_NAME cfg) (fs w) /\
  unopenable (snd (drop_database_default None w)) = unopenable w.
Proof.
  intros He Hm Hu.
  assert (Hx : truthy (Some (TEST_DB_NAME cfg)) <> truthy None)
    by (rewrite TEST_DB_NAME_truthy; discriminate).
  change (drop_database_default None w)
    with (drop_database (Some (TEST_DB_NAME cfg)) None w).
  rewrite (drop_database_sqlite_file _ _ _ _ _ _ _ Hx He Hm).
  change (dropped_name (Some (TEST_DB_NAME cfg)) None) with (TEST_DB_NAME cfg).
  destruct (fs w !! TEST_DB_NAME cfg) as [f|] eqn:E.
  - destruct Hu as [Hu|Hu]; [discriminate|]. rewrite Hu.
    repeat split.
  - cbn [fst snd fs log unopenable]. rewrite delete_id by exact E.
    repeat split.
Qed.

(** X11: on a sqlite file, dropping starts the test database afresh, where
    the file can be unlinked (or there is none) and sqlite3 can create it
    again.  After [drop_database()] the database does not exist and has no
    mark; [mark_database] then succeeds, after which the database exists
    and has the mark. *)
Theorem drop_database_starts_afresh (w : World Ext) :
  get_db_engine cfg = "sqlite3" ->
  TEST_DB_NAME cfg <> ":memory:" ->
  fs w !! TEST_DB_NAME cfg = None \/ unlinkable (TEST_DB_NAME cfg) w = true ->
  bool_decide (TEST_DB_NAME cfg ∈ unopenable w) = false ->
  fst ((drop_database_default None ;; db_exists None) w) = Ok false /\
  fst ((drop_database_default None ;; mark_exists) w) = Ok false /\
  fst ((drop_database_default None ;; mark_database) w) = Ok tt /\
  fst ((drop_database_default None ;; mark_database ;; db_exists None) w) =
    Ok true /\
  fst ((drop_database_default None ;; mark_database ;; mark_exists) w) =
    Ok true.
Proof.
  intros He Hm Hu Ho.
  destruct (drop_database_default_sqlite_file w He Hm Hu) as (Hr & Hf & Hp).
  unfold bind at 1 2 3 4 6.
  destruct (drop_database_default None w) as [r w1].
  cbn [fst snd] in Hr, Hf, Hp. subst r.
  assert (Hl : fs w1 !! TEST_DB_NAME cfg = None)
    by (rewrite Hf; apply lookup_delete_eq).
  assert (Ht : sqlite_tables (TEST_DB_NAME cfg) w1 = Some []).
  { unfold sqlite_tables. now rewrite Hl. }
  assert (Hc : connectable (TEST_DB_NAME cfg) w1 = true).
  { rewrite (connectable_missing _ _ Hl), Hp, Ho. reflexivity. }
  split; [|split; [|split; [|split]]].
  - rewrite (db_exists_sqlite_file _ _ _ _ _ He Hm). cbn [fst].
    change (suffixed_name cfg None) with (TEST_DB_NAME cfg).
    rewrite Hl. reflexivity.
  - rewrite (mark_exists_sqlite_file _ _ _ _ He Hm), Hc. now rewrite Hl.
  - now rewrite (mark_database_sqlite_file _ _ _ _ _ He Hm Hc Ht eq_refl).
  - unfold bind.
    rewrite (mark_database_sqlite_file _ _ _ _ _ He Hm Hc Ht eq_refl).
    rewrite (db_exists_sqlite_file _ _ _ _ _ He Hm). cbn [fst fs world_after].
    change (suffixed_name cfg None) with (TEST_DB_NAME cfg).
    rewrite lookup_insert_eq. reflexivity.
  - unfold bind.
    rewrite (mark_database_sqlite_file _ _ _ _ _ He Hm Hc Ht eq_refl).
    rewrite (mark_exists_sqlite_file _ _ _ _ He Hm).
    rewrite (connectable_database _ _ ([] ++ ["mark_table"]))
      by apply lookup_insert_eq.
    cbn [unopenable world_after fs]. rewrite Hp, Ho. cbn [negb].
    now rewrite lookup_insert_eq.
Qed.

(** *** Each backend keeps to its own means *)

Lemma popens_app (t1 t2 : list event) : popens (t1 ++ t2) = popens t1 ++ popens t2.
Proof. apply flat_map_app. Qed.

Lemma after_client_frame (argv : list string) (w : World Ext) :
  fs (after_client popen argv w) = fs w /\
  popens (trace (after_client popen argv w)) = popens (trace w) ++ [argv].
Proof.
  split; [reflexivity|].
  unfold after_client, log, set_ext. cbn [trace]. now rewrite popens_app.
Qed.

Lemma drop_database_rejected_or_accepted (name suffix : pyarg) (w : World Ext) :
  drop_database name suffix w =
    (Raise (AssertionError "name and suffix cannot be used together"), w) \/
  truthy name <> truthy suffix.
Proof.
  destruct (bool_decide (truthy name = truthy suffix)) eqn:E.
  - left. apply drop_database_assert. now apply bool_decide_eq_true in E.
  - right. now apply bool_decide_eq_false in E.
Qed.

(** X12: with postgres or mysql the helpers never touch the file system and
    start at most one process each, one of the clients; with sqlite3 they
    start no process at all and leave the servers alone. *)
Theorem helpers_keep_to_their_backend
    (name suffix db_suffix : pyarg) (w : World Ext) :
  (get_db_engine cfg = "postgresql_psycopg2" \/ get_db_engine cfg = "mysql" ->
   (fs (snd (drop_database name suffix w)) = fs w /\
    fs (snd (db_exists db_suffix w)) = fs w /\
    fs (snd (mark_database w)) = fs w /\
    fs (snd (mark_exists w)) = fs w) /\
   (exists argv,
      (hd_error argv = Some "psql" \/ hd_error argv = Some "mysql") /\
      (popens (trace (snd (drop_database name suffix w))) = popens (trace w) \/
       popens (trace (snd (drop_database name suffix w))) =
         popens (trace w) ++ [argv])) /\
   (exists argv,
      (hd_error argv = Some "psql" \/ hd_error argv = Some "mysql") /\
      popens (trace (snd (db_exists db_suffix w))) = popens (trace w) ++ [argv]) /\
   (exists argv,
      (hd_error argv = Some "psql" \/ hd_error argv = Some "mysql") /\
      popens (trace (snd (mark_database w))) = popens (trace w) ++ [argv]) /\
   (exists argv,
      (hd_error argv = Some "psql" \/ hd_error argv = Some "mysql") /\
      popens (trace (snd (mark_exists w))) = popens (trace w) ++ [argv])) /\
  (get_db_engine cfg = "sqlite3" ->
   (ext (snd (drop_database name suffix w)) = ext w /\
    popens (trace (snd (drop_database name suffix w))) = popens (trace w)) /\
   (ext (snd (db_exists db_suffix w)) = ext w /\
    popens (trace (snd (db_exists db_suffix w))) = popens (trace w)) /\
   (ext (snd (mark_database w)) = ext w /\
    popens (trace (snd (mark_database w))) = popens (trace w)) /\
   (ext (snd (mark_exists w)) = ext w /\
    popens (trace (snd (mark_exists w))) = popens (trace w))).
Proof.
  split.
  - intros [He|He].
    + pose proof (postgres_engine_is _ He) as E1.
      assert (Hmd : mark_database w =
                    (match client_run popen
                             ["psql"; TEST_DB_NAME cfg; "-c";
                              "CREATE TABLE mark_table();"] w with
                     | Some c => if (returncode c =? 0)%Z then Ok tt
                                 else Raise (AssertionError "")
                     | None => Raise PopenError
                     end,
                     after_client popen
                       ["psql"; TEST_DB_NAME cfg; "-c";
                        "CREATE TABLE mark_table();"] w)).
      { unfold_mark_database. rewrite E1.
        now apply (run_cmd_then_assert _ _ _ (fun r => (status_code r =? 0)%Z)). }
      rewrite (db_exists_postgres _ _ _ _ _ He), Hmd,
        (mark_exists_postgres _ _ _ _ He). cbn [snd].
      destruct (drop_database_rejected_or_accepted name suffix w) as [Hd|Hx].
      * rewrite Hd. cbn [snd]. split; [repeat split|].
        split; [exists ["psql"]; split; left; reflexivity|].
        repeat split; (eexists; split;
                       [|apply (proj2 (after_client_frame _ _))]; left; reflexivity).
      * rewrite (drop_database_postgres _ _ _ _ _ _ _ Hx He). cbn [snd].
        split; [repeat split|].
        split; [eexists; split;
                [|right; apply (proj2 (after_client_frame _ _))]; left; reflexivity|].
        repeat split; (eexists; split;
                       [|apply (proj2 (after_client_frame _ _))]; left; reflexivity).
    + destruct (mysql_engine_is _ He) as [E1 E2].
      assert (Hmd : mark_database w =
                    (match client_run popen
                             (mysql_argv cfg [TEST_DB_NAME cfg; "-e";
                                "CREATE TABLE mark_table(kaka int);"]) w with
                     | Some c => if (returncode c =? 0)%Z then Ok tt
                                 else Raise (AssertionError "")
                     | None => Raise PopenError
                     end,
                     after_client popen
                       (mysql_argv cfg [TEST_DB_NAME cfg; "-e";
                          "CREATE TABLE mark_table(kaka int);"]) w)).
      { unfold_mark_database. rewrite E1, E2.
        now apply (run_cmd_then_assert _ _ _ (fun r => (status_code r =? 0)%Z)). }
      rewrite (db_exists_mysql _ _ _ _ _ He), Hmd,
        (mark_exists_mysql _ _ _ _ He). cbn [snd].
      destruct (drop_database_rejected_or_accepted name suffix w) as [Hd|Hx].
      * rewrite Hd. cbn [snd]. split; [repeat split|].
        split; [exists ["mysql"]; split; [right|left]; reflexivity|].
        repeat split; (eexists; split;
                       [|apply (proj2 (after_client_frame _ _))]; right; reflexivity).
      * rewrite (drop_database_mysql _ _ _ _ _ _ _ Hx He). cbn [snd].
        split; [repeat split|].
        split; [eexists; split;
                [|right; apply (proj2 (after_client_frame _ _))]; right; reflexivity|].
        repeat split; (eexists; split;
                       [|apply (proj2 (after_client_frame _ _))]; right; reflexivity).
  - intros He. destruct (sqlite3_engine_is _ He) as (E1 & E2 & E3).
    split; [|split; [|split]].
    + destruct (drop_database_rejected_or_accepted name suffix w) as [Hd|Hx].
      * rewrite Hd. split; reflexivity.
      * destruct (String.eqb_spec (dropped_name name suffix) ":memory:")
          as [Hm|Hm].
        -- rewrite (drop_database_accepted _ _ _ _ _ _ _ Hx). cbv zeta.
           rewrite E1, E2, E3, Hm. split; reflexivity.
        -- rewrite (drop_database_sqlite_file _ _ _ _ _ _ _ Hx He Hm).
           destruct (fs w !! _); cbn [snd ext trace set_fs log];
             rewrite !popens_app; cbn; rewrite ?app_nil_r; split; reflexivity.
    + unfold_db_exists. rewrite E1, E2, E3.
      destruct (String.eqb _ ":memory:"); [split; reflexivity|].
      unfold bind, os_path_exists, emit, log, set_fs. cbn.
      rewrite popens_app. cbn. rewrite app_nil_r. split; reflexivity.
    + unfold_mark_database. rewrite E1, E2, E3.
      destruct (String.eqb _ ":memory:"); [split; reflexivity|].
      generalize (TEST_DB_NAME cfg). intros p.
      unfold bind, try_finally, with_conn, sqlite3_connect, conn_execute,
        conn_close, emit, log, set_fs, ret. cbn.
      destruct (bool_decide (p ∈ unopenable w)); cbn;
        [rewrite !popens_app; cbn; rewrite !app_nil_r; split; reflexivity|].
      destruct (fs w !! p) as [[ts| |]|] eqn:E; cbn;
        rewrite ?E, ?lookup_insert_eq; cbn;
        try destruct (has_table "mark_table" ts); cbn;
        rewrite !popens_app; cbn; rewrite !app_nil_r; split; reflexivity.
    + unfold_mark_exists. rewrite E1, E2, E3.
      destruct (String.eqb _ ":memory:"); [split; reflexivity|].
      generalize (TEST_DB_NAME cfg). intros p.
      unfold bind, try_finally, except_OperationalError, with_conn,
        sqlite3_connect, conn_execute, conn_close, emit, log, set_fs, ret. cbn.
      destruct (bool_decide (p ∈ unopenable w)); cbn;
        [rewrite !popens_app; cbn; rewrite !app_nil_r; split; reflexivity|].
      destruct (fs w !! p) as [[ts| |]|] eqn:E; cbn;
        rewrite ?E, ?lookup_insert_eq; cbn;
        try destruct (has_table "mark_table" ts); cbn;
        rewrite !popens_app; cbn; rewrite !app_nil_r; split; reflexivity.
Qed.

(** *** [drop_database] with a suffix *)



(** X14: when a client's drop is taken for a failure.  With postgres
    [drop_database] raises its [AssertionError] exactly when psql ran, its
    standard output could be decoded and does not hold [DROP DATABASE], and
    its standard error could be decoded and does not hold [does not exist];
    the exit status is not looked at.  With mysql it raises the
    [AssertionError] exactly when the client ran, its standard error could
    be decoded and does not say [database doesn't exist], and the status is
    not 0.  Output that [force_text] cannot decode makes the call raise the
    decoding error instead: with postgres the standard output always, the
    standard error only when the output did not already settle the check;
    with mysql the standard error always. *)
Theorem drop_database_client_failure (name suffix : pyarg) (w : World Ext) :
  truthy name <> truthy suffix ->
  (get_db_engine cfg = "postgresql_psycopg2" ->
   (fst (drop_database name suffix w) = Raise (AssertionError "") <->
    exists c out err,
      client_run popen (psql_drop_argv (dropped_name name suffix)) w = Some c /\
      force_text (stdoutdata c) = Some out /\
      py_in "DROP DATABASE" out = false /\
      force_text (stderrdata c) = Some err /\
      py_in "does not exist" err = false) /\
   (fst (drop_database name suffix w) = Raise DjangoUnicodeDecodeError <->
    exists c,
      client_run popen (psql_drop_argv (dropped_name name suffix)) w = Some c /\
      (force_text (stdoutdata c) = None \/
       exists out,
         force_text (stdoutdata c) = Some out /\
         py_in "DROP DATABASE" out = false /\
         force_text (stderrdata c) = None))) /\
  (get_db_engine cfg = "mysql" ->
   (fst (drop_database name suffix w) = Raise (AssertionError "") <->
    exists c err,
      client_run popen (mysql_drop_argv cfg (dropped_name name suffix)) w =
        Some c /\
      force_text (stderrdata c) = Some err /\
      py_in "database doesn't exist" err = false /\
      returncode c <> 0%Z) /\
   (fst (drop_database name suffix w) = Raise DjangoUnicodeDecodeError <->
    exists c,
      client_run popen (mysql_drop_argv cfg (dropped_name name suffix)) w =
        Some c /\
      force_text (stderrdata c) = None)).
Proof.
  intros Hx. split; intros He.
  - rewrite (drop_database_postgres _ _ _ _ _ _ _ Hx He). cbn [fst].
    destruct (client_run popen _ w) as [c|].
    2:{ split; split; try discriminate; try (intros _; reflexivity).
        - now intros (c' & out & err & H & _).
        - now intros (c' & H & _). }
    unfold postgres_drop_outcome.
    destruct (force_text (stdoutdata c)) as [out|] eqn:Eo.
    2:{ split; split; try discriminate; try (intros _; reflexivity).
        - intros (c' & out & err & [= <-] & H & _); congruence.
        - intros _. exists c. split; [reflexivity|now left]. }
    destruct (py_in "DROP DATABASE" out) eqn:Ei.
    { split; split; try discriminate; try (intros _; reflexivity).
      - intros (c' & out' & err & [= <-] & H1 & H2 & _). congruence.
      - intros (c' & [= <-] & [H|(out' & H1 & H2 & _)]); congruence. }
    destruct (force_text (stderrdata c)) as [err|] eqn:Ee.
    2:{ split; split; try discriminate; try (intros _; reflexivity).
        - intros (c' & out' & err & [= <-] & _ & _ & H & _). congruence.
        - intros _. exists c. split; [reflexivity|]. right. now exists out. }
    destruct (py_in "does not exist" err) eqn:Ej.
    { split; split; try discriminate; try (intros _; reflexivity).
      - intros (c' & out' & err' & [= <-] & _ & _ & H1 & H2). congruence.
      - intros (c' & [= <-] & [H|(out' & _ & _ & H)]); congruence. }
    split; split; try discriminate; try (intros _; reflexivity).
    + intros _. exists c, out, err. now rewrite Eo, Ee.
    + intros (c' & [= <-] & [H|(out' & _ & _ & H)]); congruence.
  - rewrite (drop_database_mysql _ _ _ _ _ _ _ Hx He). cbn [fst].
    destruct (client_run popen _ w) as [c|].
    2:{ split; split; try discriminate; try (intros _; reflexivity).
        - now intros (c' & err & H & _).
        - now intros (c' & H & _). }
    unfold mysql_drop_outcome.
    destruct (force_text (stderrdata c)) as [err|] eqn:Ee.
    2:{ split; split; try discriminate; try (intros _; reflexivity).
        - intros (c' & err & [= <-] & H & _). congruence.
        - intros _. now exists c. }
    destruct (py_in "database doesn't exist" err) eqn:Ei; cbn [orb].
    { split; split; try discriminate; try (intros _; reflexivity).
      - intros (c' & err' & [= <-] & H1 & H2 & _). congruence.
      - intros (c' & [= <-] & H). congruence. }
    destruct (Z.eqb_spec (returncode c) 0) as [Hr|Hr].
    { split; split; try discriminate; try (intros _; reflexivity).
      - intros (c' & err' & [= <-] & _ & _ & H). contradiction.
      - intros (c' & [= <-] & H). congruence. }
    split; split; try discriminate; try (intros _; reflexivity).
    + intros _. exists c, err. now rewrite Ee.
    + intros (c' & [= <-] & H). congruence.
Qed.

End MoreHelperProperties.

Lemma run_mysql_starts_mysql_witness :
  (truthy (USER mysql_settings) = true /\
   trace (snd (run_mysql script scripted_popen mysql_settings [] bare_world)) =
   [EvPopen ["mysql"; "-u"; "root"]]) /\
  (truthy (USER (settings_named "django.db.backends.mysql" "db" None)) = false /\
   trace (snd (run_mysql script scripted_popen
                 (settings_named "django.db.backends.mysql" "db" None)
                 ["-e"; "SELECT 1"] bare_world)) =
   [EvPopen ["mysql"; "-e"; "SELECT 1"]]).
Proof.
  destruct (run_mysql_starts_mysql script scripted_popen mysql_settings []
              bare_world) as (argv & Ht & _ & Hu & _).
  destruct (run_mysql_starts_mysql script scripted_popen
              (settings_named "django.db.backends.mysql" "db" None)
              ["-e"; "SELECT 1"] bare_world) as (argv' & Ht' & _ & _ & Hn & _).
  split.
  - split; [reflexivity|]. rewrite Ht.
    destruct (Hu eq_refl) as (user & [= <-] & ->). reflexivity.
  - split; [reflexivity|]. rewrite Ht', (Hn eq_refl). reflexivity.
Defined.


Lemma skip_if_sqlite_in_memory_when_witness :
  (ENGINE sqlite_memory_settings = "django.db.backends.sqlite3" /\
   NAME sqlite_memory_settings = ":memory:") /\
  (exists msg,
     skip_if_sqlite_in_memory script sqlite_memory_settings bare_world =
     (Raise (Skipped msg), bare_world)) /\
  ~ (ENGINE (settings_named "sqlite3" ":memory:" None) =
       "django.db.backends.sqlite3" /\
     NAME (settings_named "sqlite3" ":memory:" None) = ":memory:") /\
  skip_if_sqlite_in_memory script (settings_named "sqlite3" ":memory:" None)
    bare_world = (Ok tt, bare_world).
Proof.
  pose proof (skip_if_sqlite_in_memory_when script sqlite_memory_settings
                bare_world) as (H1 & _ & _).
  pose proof (skip_if_sqlite_in_memory_when script
                (settings_named "sqlite3" ":memory:" None) bare_world)
    as (_ & H2 & _).
  assert (Hy : ENGINE sqlite_memory_settings = "django.db.backends.sqlite3" /\
               NAME sqlite_memory_settings = ":memory:")
    by (split; reflexivity).
  assert (Hn : ~ (ENGINE (settings_named "sqlite3" ":memory:" None) =
                    "django.db.backends.sqlite3" /\
                  NAME (settings_named "sqlite3" ":memory:" None) = ":memory:"))
    by (intros [H _]; discriminate).
  split; [exact Hy|]. split; [exact (H1 Hy)|]. split; [exact Hn | exact (H2 Hn)].
Defined.

Lemma skip_guard_and_in_memory_guards_witness :
  ENGINE (settings_named "django.db.backends.sqlite3" "db.sqlite3"
            (Some ":memory:")) = "django.db.backends.sqlite3" /\
  TEST_NAME (settings_named "django.db.backends.sqlite3" "db.sqlite3"
               (Some ":memory:")) = Some ":memory:" /\
  NAME (settings_named "django.db.backends.sqlite3" "db.sqlite3"
          (Some ":memory:")) <> ":memory:" /\
  skip_if_sqlite_in_memory script
    (settings_named "django.db.backends.sqlite3" "db.sqlite3" (Some ":memory:"))
    bare_world = (Ok tt, bare_world) /\
  mark_database script scripted_popen
    (settings_named "django.db.backends.sqlite3" "db.sqlite3" (Some ":memory:"))
    bare_world =
    (Raise (AssertionError "sqlite in-memory database cannot be marked!"),
     bare_world) /\
  NAME (settings_named "django.db.backends.sqlite3" ":memory:" None) =
    ":memory:" /\
  TEST_NAME (settings_named "django.db.backends.sqlite3" ":memory:" None) <>
    Some ":memory:" /\
  (exists msg,
     skip_if_sqlite_in_memory script
       (settings_named "django.db.backends.sqlite3" ":memory:" None) bare_world =
     (Raise (Skipped msg), bare_world)) /\
  fst (db_exists script scripted_popen
         (settings_named "django.db.backends.sqlite3" ":memory:" None) None
         (world0 [] {[ "test_:memory:_inner" := SqliteDb [] ]})) = Ok true.
Proof.
  pose proof (skip_guard_and_in_memory_guards script scripted_popen
                (settings_named "django.db.backends.sqlite3" "db.sqlite3"
                   (Some ":memory:")) None bare_world eq_refl) as (H1 & _).
  pose proof (skip_guard_and_in_memory_guards script scripted_popen
                (settings_named "django.db.backends.sqlite3" ":memory:" None)
                None bare_world eq_refl) as (_ & H2).
  pose proof (skip_guard_and_in_memory_guards script scripted_popen
                (settings_named "django.db.backends.sqlite3" ":memory:" None)
                None (world0 [] {[ "test_:memory:_inner" := SqliteDb [] ]})
                eq_refl) as (_ & H3).
  assert (Hn : NAME (settings_named "django.db.backends.sqlite3" "db.sqlite3"
                       (Some ":memory:")) <> ":memory:") by discriminate.
  assert (Ht : TEST_NAME (settings_named "django.db.backends.sqlite3"
                            ":memory:" None) <> Some ":memory:")
    by discriminate.
  destruct (H1 eq_refl Hn) as (Ha & _ & Hb & _).
  destruct (H2 eq_refl Ht) as (Hc & _ & _).
  destruct (H3 eq_refl Ht) as (_ & _ & Hd).
  split; [reflexivity|]. split; [reflexivity|]. split; [exact Hn|].
  split; [exact Ha|]. split; [exact Hb|]. split; [reflexivity|].
  split; [exact Ht|]. split; [exact Hc | exact Hd].
Defined.



Lemma sqlite_connection_always_closed_witness :
  get_db_engine sqlite_file_settings = "sqlite3" /\
  TEST_DB_NAME sqlite_file_settings <> ":memory:" /\
  (connectable sqlite_path (world0 [] {[ sqlite_path := NotADb ]}) = true /\
   fst (mark_exists script scripted_popen sqlite_file_settings
          (world0 [] {[ sqlite_path := NotADb ]})) =
     Raise (DatabaseError "file is not a database") /\
   exists e,
     trace (snd (mark_exists script scripted_popen sqlite_file_settings
                   (world0 [] {[ sqlite_path := NotADb ]}))) =
     [] ++ [EvConnect sqlite_path;
            EvExecute sqlite_path "SELECT 1 FROM mark_table";
            e; EvClose sqlite_path]) /\
  (connectable sqlite_path (world_without_access [] ∅ sqlite_path) = false /\
   mark_database script scripted_popen sqlite_file_settings
     (world_without_access [] ∅ sqlite_path) =
     (Raise (OperationalError "unable to open database file"),
      log (EvConnect sqlite_path) (world_without_access [] ∅ sqlite_path)) /\
   mark_exists script scripted_popen sqlite_file_settings
     (world_without_access [] ∅ sqlite_path) =
     (Raise (OperationalError "unable to open database file"),
      log (EvConnect sqlite_path) (world_without_access [] ∅ sqlite_path))) /\
  (connectable sqlite_path (world0 [] {[ sqlite_path := Directory ]}) = false /\
   fst (mark_exists script scripted_popen sqlite_file_settings
          (world0 [] {[ sqlite_path := Directory ]})) =
     Raise (OperationalError "unable to open database file")).
Proof.
  assert (Hn : TEST_DB_NAME sqlite_file_settings <> ":memory:") by discriminate.
  split; [reflexivity|]. split; [exact Hn|].
  destruct (sqlite_connection_always_closed script scripted_popen
              sqlite_file_settings (world0 [] {[ sqlite_path := NotADb ]})
              eq_refl Hn) as (H1 & _).
  destruct (sqlite_connection_always_closed script scripted_popen
              sqlite_file_settings (world_without_access [] ∅ sqlite_path)
              eq_refl Hn) as (_ & H2 & _).
  destruct (sqlite_connection_always_closed script scripted_popen
              sqlite_file_settings (world0 [] {[ sqlite_path := Directory ]})
              eq_refl Hn) as (_ & H3 & _).
  split; [|split].
  - split; [reflexivity|]. split; [reflexivity|].
    destruct (H1 eq_refl) as (_ & (e & He & _)). exists e. exact He.
  - split; [reflexivity|]. exact (H2 eq_refl).
  - split; [reflexivity|]. destruct (H3 eq_refl) as (_ & ->). reflexivity.
Defined.

Lemma drop_database_starts_afresh_witness :
  get_db_engine sqlite_file_settings = "sqlite3" /\
  TEST_DB_NAME sqlite_file_settings <> ":memory:" /\
  unlinkable (TEST_DB_NAME sqlite_file_settings)
    (world0 [] {[ sqlite_path := SqliteDb ["mark_table"] ]}) = true /\
  bool_decide (TEST_DB_NAME sqlite_file_settings ∈
               unopenable (world0 [] {[ sqlite_path := SqliteDb ["mark_table"] ]}))
    = false /\
  fst ((drop_database_default script scripted_popen latin1_text
          sqlite_file_settings None ;;
        mark_exists script scripted_popen sqlite_file_settings)
         (world0 [] {[ sqlite_path := SqliteDb ["mark_table"] ]})) = Ok false /\
  fst ((drop_database_default script scripted_popen latin1_text
          sqlite_file_settings None ;;
        mark_database script scripted_popen sqlite_file_settings ;;
        mark_exists script scripted_popen sqlite_file_settings)
         (world0 [] {[ sqlite_path := SqliteDb ["mark_table"] ]})) = Ok true.
Proof.
  assert (Hn : TEST_DB_NAME sqlite_file_settings <> ":memory:") by discriminate.
  assert (Hu : unlinkable (TEST_DB_NAME sqlite_file_settings)
                 (world0 [] {[ sqlite_path := SqliteDb ["mark_table"] ]}) = true)
    by reflexivity.
  assert (Ho : bool_decide
                 (TEST_DB_NAME sqlite_file_settings ∈
                  unopenable
                    (world0 [] {[ sqlite_path := SqliteDb ["mark_table"] ]}))
               = false) by reflexivity.
  split; [reflexivity|]. split; [exact Hn|]. split; [exact Hu|].
  split; [exact Ho|].
  destruct (drop_database_starts_afresh script scripted_popen latin1_text
              sqlite_file_settings
              (world0 [] {[ sqlite_path := SqliteDb ["mark_table"] ]})
              eq_refl Hn (or_intror Hu) Ho) as (_ & H2 & _ & _ & H5).
  split; [exact H2 | exact H5].
Defined.

Lemma helpers_keep_to_their_backend_witness :
  (get_db_engine mysql_settings = "postgresql_psycopg2" \/
   get_db_engine mysql_settings = "mysql") /\
  fs (snd (mark_database script scripted_popen mysql_settings
             (world0 [Some (exits 0 "" "")]
                     {[ sqlite_path := SqliteDb [] ]}))) =
    {[ sqlite_path := SqliteDb [] ]} /\
  get_db_engine sqlite_file_settings = "sqlite3" /\
  ext (snd (mark_database script scripted_popen sqlite_file_settings
              (world0 [Some (exits 0 "" "")] ∅))) = [Some (exits 0 "" "")] /\
  popens (trace (snd (mark_database script scripted_popen sqlite_file_settings
                        (world0 [Some (exits 0 "" "")] ∅)))) = [].
Proof.
  pose proof (helpers_keep_to_their_backend script scripted_popen latin1_text
                mysql_settings None None None
                (world0 [Some (exits 0 "" "")] {[ sqlite_path := SqliteDb [] ]}))
    as (H1 & _).
  pose proof (helpers_keep_to_their_backend script scripted_popen latin1_text
                sqlite_file_settings None None None
                (world0 [Some (exits 0 "" "")] ∅)) as (_ & H2).
  assert (Hm : get_db_engine mysql_settings = "postgresql_psycopg2" \/
               get_db_engine mysql_settings = "mysql") by (right; reflexivity).
  destruct (H1 Hm) as ((_ & _ & Hf & _) & _).
  destruct (H2 eq_refl) as (_ & _ & (He & Hp) & _).
  split; [exact Hm|]. split; [exact Hf|]. split; [reflexivity|].
  split; [exact He | exact Hp].
Defined.


Lemma drop_database_client_failure_witness :
  truthy (Some "db") <> truthy None /\
  get_db_engine postgres_settings = "postgresql_psycopg2" /\
  client_run scripted_popen (psql_drop_argv "db")
    (world0 [Some (exits 0 "" "")] ∅) = Some (exits 0 "" "") /\
  fst (drop_database script scripted_popen ascii_text postgres_settings
         (Some "db") None (world0 [Some (exits 0 "" "")] ∅)) =
    Raise (AssertionError "") /\
  ascii_text [xff] = None /\
  fst (drop_database script scripted_popen ascii_text postgres_settings
         (Some "db") None
         (world0 [Some {| returncode := 0; stdoutdata := [xff];
                          stderrdata := [] |}] ∅)) =
    Raise DjangoUnicodeDecodeError /\
  get_db_engine mysql_settings = "mysql" /\
  fst (drop_database script scripted_popen ascii_text mysql_settings
         (Some "db") None
         (world0 [Some (exits 1 "" "ERROR 1044: Access denied")] ∅)) =
    Raise (AssertionError "") /\
  fst (drop_database script scripted_popen ascii_text mysql_settings
         (Some "db") None
         (world0 [Some {| returncode := 0; stdoutdata := [];
                          stderrdata := [xff] |}] ∅)) =
    Raise DjangoUnicodeDecodeError.
Proof.
  assert (Hx : truthy (Some "db") <> truthy None) by discriminate.
  pose proof (drop_database_client_failure script scripted_popen ascii_text
                postgres_settings (Some "db") None
                (world0 [Some (exits 0 "" "")] ∅) Hx) as (Hp & _).
  pose proof (drop_database_client_failure script scripted_popen ascii_text
                postgres_settings (Some "db") None
                (world0 [Some {| returncode := 0; stdoutdata := [xff];
                                 stderrdata := [] |}] ∅) Hx) as (Hp' & _).
  pose proof (drop_database_client_failure script scripted_popen ascii_text
                mysql_settings (Some "db") None
                (world0 [Some (exits 1 "" "ERROR 1044: Access denied")] ∅) Hx)
    as (_ & Hm).
  pose proof (drop_database_client_failure script scripted_popen ascii_text
                mysql_settings (Some "db") None
                (world0 [Some {| returncode := 0; stdoutdata := [];
                                 stderrdata := [xff] |}] ∅) Hx)
    as (_ & Hm').
  split; [exact Hx|]. split; [reflexivity|]. split; [reflexivity|].
  split; [|split; [reflexivity|split; [|split; [reflexivity|split]]]].
  - apply (proj1 (Hp eq_refl)). exists (exits 0 "" ""), "", "".
    split; [reflexivity|]. split; [reflexivity|]. split; [reflexivity|].
    split; reflexivity.
  - apply (proj2 (Hp' eq_refl)).
    exists {| returncode := 0; stdoutdata := [xff]; stderrdata := [] |}.
    split; [reflexivity|]. left. reflexivity.
  - apply (proj1 (Hm eq_refl)).
    exists (exits 1 "" "ERROR 1044: Access denied"),
      "ERROR 1044: Access denied".
    split; [reflexivity|]. split; [reflexivity|].
    split; [reflexivity | discriminate].
  - apply (proj2 (Hm' eq_refl)).
    exists {| returncode := 0; stdoutdata := []; stderrdata := [xff] |}.
    split; reflexivity.
Defined.

(** ** More on the transaction probe *)

Lemma filter_probe_named (rows : list Item) :
  filter (fun it => item_name it = "transaction_noop_test") rows =
  List.filter probe_named rows.
Proof.
  induction rows as [|r rows IH]; [reflexivity|].
  rewrite filter_cons. cbn [List.filter]. unfold probe_named at 1.
  destruct (String.eqb_spec (item_name r) "transaction_noop_test") as [E|E].
  - rewrite decide_True by exact E. now rewrite IH.
  - rewrite decide_False by exact E. exact IH.
Qed.

Lemma after_rollback_named_count (d : Django) :
  length (filter (fun it => item_name it = "transaction_noop_test")
            (after_rollback d)) =
  if rollback_is_noop d
  then S (length (List.filter probe_named (items d)))
  else length (List.filter probe_named (committed d)).
Proof.
  unfold after_rollback, pending_after_rollback, items.
  destruct (rollback_is_noop d).
  - rewrite !filter_app, !length_app, !filter_probe_named.
    rewrite List.filter_app, length_app. cbn. lia.
  - rewrite app_nil_r. now rewrite filter_probe_named.
Qed.

Lemma same_pk_same_row (rows : list Item) (r r' : Item) :
  NoDup (map pk rows) -> r ∈ rows -> r' ∈ rows -> pk r = pk r' -> r = r'.
Proof.
  induction rows as [|x rows IH]; intros Hnd Hr Hr' Hpk.
  - now apply elem_of_nil in Hr.
  - cbn in Hnd. apply NoDup_cons in Hnd as [Hx Hnd].
    apply elem_of_cons in Hr as [->|Hr]; apply elem_of_cons in Hr' as [->|Hr'].
    + reflexivity.
    + elim Hx. rewrite Hpk. now apply list_elem_of_fmap_2.
    + elim Hx. rewrite <- Hpk. now apply list_elem_of_fmap_2.
    + now apply IH.
Qed.

(** The keys stay distinct once the probe has inserted its row and rolled
    back. *)
Lemma after_rollback_keys (d : Django) (r it : Item) :
  NoDup (map pk (items d)) ->
  r ∈ after_rollback d -> it ∈ after_rollback d -> pk r = pk it -> r = it.
Proof.
  intros Hnd. unfold after_rollback, pending_after_rollback.
  destruct (rollback_is_noop d).
  - rewrite app_assoc. fold (items d). intros Hr Hit Hpk.
    apply elem_of_app in Hr as [Hr|Hr]; apply elem_of_app in Hit as [Hit|Hit].
    + now apply (same_pk_same_row (items d)).
    + apply list_elem_of_singleton in Hit. subst it.
      now elim (probe_row_not_in_table d r).
    + apply list_elem_of_singleton in Hr. subst r.
      now elim (probe_row_not_in_table d it).
    + apply list_elem_of_singleton in Hr. apply list_elem_of_singleton in Hit.
      congruence.
  - rewrite app_nil_r. intros Hr Hit Hpk.
    apply (same_pk_same_row (items d)); try assumption;
      apply elem_of_app; now left.
Qed.

Lemma probed_clean (d : Django) :
  existsb probe_named (items d) = false ->
  existsb probe_named (items (probed d)) = false /\ probed (probed d) = probed d.
Proof.
  unfold items, probed, with_rows. cbn [committed pending rollback_is_noop].
  intros Hn. rewrite existsb_app in Hn. apply orb_false_iff in Hn as [Hc Hp].
  destruct (rollback_is_noop d); split; try reflexivity;
    rewrite existsb_app, Hc; [exact Hp | reflexivity].
Qed.

(** X15: on the legacy path the answer only depends on how many rows named
    ['transaction_noop_test'] are visible once the probe has inserted its
    row and rolled back.  When rollback does nothing these are the rows of
    that name already in the table and the one inserted; when rollback
    works they are the committed rows of that name only, for the rollback
    has discarded whatever the connection had not committed.  None gives
    [False], one gives [True], more make [Item.objects.get] raise
    [MultipleObjectsReturned], which is the only exception of the probe. *)
Theorem noop_transactions_by_count (d : Django) :
  in_atomic_block d = None ->
  fst (noop_transactions d) =
  match (if rollback_is_noop d
         then S (length (List.filter probe_named (items d)))
         else length (List.filter probe_named (committed d))) with
  | 0 => Ok false
  | 1 => Ok true
  | _ => Raise MultipleObjectsReturned
  end.
Proof.
  intros H. rewrite (noop_transactions_legacy _ H).
  rewrite <- after_rollback_named_count.
  destruct (filter _ (after_rollback d)) as [|it [|it' l]]; reflexivity.
Qed.

Lemma noop_transactions_by_count_witness :
  in_atomic_block
    (legacy_django true
       [{| pk := 1; item_name := "transaction_noop_test" |}]) = None /\
  fst (noop_transactions
         (legacy_django true
            [{| pk := 1; item_name := "transaction_noop_test" |}])) =
    Raise MultipleObjectsReturned /\
  fst (noop_transactions
         (legacy_django false
            [{| pk := 1; item_name := "transaction_noop_test" |};
             {| pk := 2; item_name := "transaction_noop_test" |}])) =
    Raise MultipleObjectsReturned /\
  fst (noop_transactions
         (legacy_django false [{| pk := 1; item_name := "pear" |}])) = Ok false /\
  fst (noop_transactions
         (legacy_django_pending false []
            [{| pk := 1; item_name := "transaction_noop_test" |}] 1)) =
    Ok false /\
  fst (noop_transactions
         (legacy_django_pending true []
            [{| pk := 1; item_name := "transaction_noop_test" |}] 1)) =
    Raise MultipleObjectsReturned.
Proof.
  split; [reflexivity|]. split; [|split; [|split; [|split]]].
  - exact (noop_transactions_by_count
             (legacy_django true
                [{| pk := 1; item_name := "transaction_noop_test" |}]) eq_refl).
  - exact (noop_transactions_by_count
             (legacy_django false
                [{| pk := 1; item_name := "transaction_noop_test" |};
                 {| pk := 2; item_name := "transaction_noop_test" |}]) eq_refl).
  - exact (noop_transactions_by_count
             (legacy_django false [{| pk := 1; item_name := "pear" |}])
             eq_refl).
  - exact (noop_transactions_by_count
             (legacy_django_pending false []
                [{| pk := 1; item_name := "transaction_noop_test" |}] 1)
             eq_refl).
  - exact (noop_transactions_by_count
             (legacy_django_pending true []
                [{| pk := 1; item_name := "transaction_noop_test" |}] 1)
             eq_refl).
Defined.



(** X17: probing again changes nothing.  When the connection has
    [in_atomic_block], or the table holds no row named
    ['transaction_noop_test'], a second call right after the first gives
    the same answer and leaves Django as the first call left it. *)
Theorem noop_transactions_again (d : Django) :
  in_atomic_block d <> None \/ existsb probe_named (items d) = false ->
  (noop_transactions ;; noop_transactions) d = noop_transactions d.
Proof.
  intros [H|Hn].
  - destruct (in_atomic_block d) as [b|] eqn:E; [|now elim H].
    unfold bind. now rewrite !(noop_transactions_atomic _ _ E).
  - destruct (in_atomic_block d) as [b|] eqn:E.
    + unfold bind. now rewrite !(noop_transactions_atomic _ _ E).
    + unfold bind. rewrite (noop_transactions_clean_table _ E Hn).
      assert (E' : in_atomic_block (probed d) = None) by exact E.
      destruct (probed_clean _ Hn) as [Hn' Hp].
      rewrite (noop_transactions_clean_table _ E' Hn'), Hp. reflexivity.
Qed.

Lemma noop_transactions_again_witness :
  (in_atomic_block (atomic_django true false []) <> None \/
   existsb probe_named (items (atomic_django true false [])) = false) /\
  (noop_transactions ;; noop_transactions) (atomic_django true false []) =
    (Ok true, atomic_django true false []) /\
  (noop_transactions ;; noop_transactions)
    (legacy_django true [{| pk := 1; item_name := "pear" |}]) =
    (Ok true, legacy_django true [{| pk := 1; item_name := "pear" |}]).
Proof.
  split; [left; discriminate|]. split.
  - rewrite (noop_transactions_again (atomic_django true false []));
      [reflexivity | left; discriminate].
  - rewrite (noop_transactions_again
               (legacy_django true [{| pk := 1; item_name := "pear" |}]));
      [reflexivity | right; reflexivity].
Defined.

(** X18: the probe never deletes a row of another name, but its rollback
    may discard one.  If the keys in the table are distinct, a row that is
    not named ['transaction_noop_test'] and is committed is still committed
    after [noop_transactions], whatever it returns or raises.  Such a row
    that the connection had written and not committed is still there when
    the connection has [in_atomic_block] or rollback does nothing.  On the
    legacy path with a working rollback nothing uncommitted is left: the
    rows that the caller had not committed are gone with the probe's. *)
Theorem noop_transactions_keeps_other_rows (d : Django) (r : Item) :
  NoDup (map pk (items d)) ->
  probe_named r = false ->
  (r ∈ committed d -> r ∈ committed (snd (noop_transactions d))) /\
  (r ∈ pending d ->
   in_atomic_block d <> None \/ rollback_is_noop d = true ->
   r ∈ pending (snd (noop_transactions d))) /\
  (in_atomic_block d = None ->
   rollback_is_noop d = false ->
   pending (snd (noop_transactions d)) = []).
Proof.
  intros Hnd Hn.
  destruct (in_atomic_block d) as [b|] eqn:E.
  { rewrite (noop_transactions_atomic _ _ E). cbn [snd].
    split; [tauto|]. split; [tauto|]. discriminate. }
  rewrite (noop_transactions_legacy _ E).
  assert (Hkeep : forall it,
             it ∈ filter (fun it => item_name it = "transaction_noop_test")
                    (after_rollback d) ->
             r ∈ after_rollback d -> pk r ≠ pk it).
  { intros it Hit Hr Hpk. apply list_elem_of_filter in Hit as [Hname Hit].
    assert (r = it) by now apply (after_rollback_keys d).
    subst it. unfold probe_named in Hn. rewrite Hname in Hn. discriminate. }
  destruct (filter _ (after_rollback d)) as [|it [|it' l]] eqn:F;
    cbn [snd with_rows committed pending]; unfold pending_after_rollback.
  - split; [tauto|]. split.
    + intros Hr [H|H]; [now elim H|]. rewrite H. apply elem_of_app. now left.
    + now intros _ ->.
  - specialize (Hkeep it (list_elem_of_here _ _)). split; [|split].
    + intros Hr. apply list_elem_of_filter. split; [|exact Hr].
      apply Hkeep. unfold after_rollback. apply elem_of_app. now left.
    + intros Hr [H|H]; [now elim H|]. rewrite H.
      apply list_elem_of_filter. split.
      * apply Hkeep. unfold after_rollback, pending_after_rollback.
        rewrite H. apply elem_of_app. right. apply elem_of_app. now left.
      * apply elem_of_app. now left.
    + now intros _ ->.
  - split; [tauto|]. split.
    + intros Hr [H|H]; [now elim H|]. rewrite H. apply elem_of_app. now left.
    + now intros _ ->.
Qed.

Lemma noop_transactions_keeps_other_rows_witness :
  NoDup (map pk (items (legacy_django_pending false
                          [{| pk := 1; item_name := "pear" |};
                           {| pk := 4; item_name := "transaction_noop_test" |}]
                          [{| pk := 5; item_name := "plum" |}] 5))) /\
  probe_named {| pk := 1; item_name := "pear" |} = false /\
  {| pk := 1; item_name := "pear" |} ∈
    committed (snd (noop_transactions
                      (legacy_django_pending false
                         [{| pk := 1; item_name := "pear" |};
                          {| pk := 4; item_name := "transaction_noop_test" |}]
                         [{| pk := 5; item_name := "plum" |}] 5))) /\
  pending (snd (noop_transactions
                  (legacy_django_pending false
                     [{| pk := 1; item_name := "pear" |};
                      {| pk := 4; item_name := "transaction_noop_test" |}]
                     [{| pk := 5; item_name := "plum" |}] 5))) = [] /\
  probe_named {| pk := 5; item_name := "plum" |} = false /\
  {| pk := 5; item_name := "plum" |} ∈
    pending (snd (noop_transactions
                    (legacy_django_pending true
                       [{| pk := 1; item_name := "pear" |}]
                       [{| pk := 5; item_name := "plum" |}] 5))).
Proof.
  assert (Hnd : NoDup (map pk (items (legacy_django_pending false
                          [{| pk := 1; item_name := "pear" |};
                           {| pk := 4; item_name := "transaction_noop_test" |}]
                          [{| pk := 5; item_name := "plum" |}] 5))))
    by (apply (bool_decide_unpack _); reflexivity).
  assert (Hnd' : NoDup (map pk (items (legacy_django_pending true
                          [{| pk := 1; item_name := "pear" |}]
                          [{| pk := 5; item_name := "plum" |}] 5))))
    by (apply (bool_decide_unpack _); reflexivity).
  destruct (noop_transactions_keeps_other_rows
              (legacy_django_pending false
                 [{| pk := 1; item_name := "pear" |};
                  {| pk := 4; item_name := "transaction_noop_test" |}]
                 [{| pk := 5; item_name := "plum" |}] 5)
              {| pk := 1; item_name := "pear" |} Hnd eq_refl)
    as (Hc & _ & Hp).
  destruct (noop_transactions_keeps_other_rows
              (legacy_django_pending true
                 [{| pk := 1; item_name := "pear" |}]
                 [{| pk := 5; item_name := "plum" |}] 5)
              {| pk := 5; item_name := "plum" |} Hnd' eq_refl)
    as (_ & Hq & _).
  split; [exact Hnd|]. split; [reflexivity|].
  split; [exact (Hc (list_elem_of_here _ _))|].
  split; [exact (Hp eq_refl eq_refl)|]. split; [reflexivity|].
  exact (Hq (list_elem_of_here _ _) (or_intror eq_refl)).
Defined.
